(** * limitly-nextjs: the request executor and the two request gates

    A shallow embedding of [HttpClient.makeRequest] (client.ts),
    [ValidationModule.validate] (modules/validation.ts) and of
    [Limitly.createMiddleware] / [Limitly.withRateLimit] (index.ts),
    together with the handful of JavaScript primitives they rely on
    (truthiness, [||], property reads, [String.prototype.replace],
    template literals, [new URL(..).pathname]). *)

From Stdlib Require Import ZArith List String Ascii Bool Lia DecimalString.
From Stdlib Require Import DecimalPos DecimalZ.
Import ListNotations.
Open Scope string_scope.
Open Scope Z_scope.
Set Warnings "-register-all".

(* ------------------------------------------------------------------ *)
(** ** JavaScript values *)

Module JS.

(** The values a JSON body, a header or a request field can hold.
    Numbers are the integers an HTTP API carries (status codes, counts,
    limits, milliseconds); fractions and NaN are not represented.
    Objects are property lists in insertion order with distinct keys. *)
Inductive JsValue : Type :=
| JUndefined
| JNull
| JBool (b : bool)
| JNum (n : Z)
| JStr (s : string)
| JArr (xs : list JsValue)
| JObj (fields : list (string * JsValue)).

(** ToBoolean. *)
Definition truthy (v : JsValue) : bool :=
  match v with
  | JUndefined | JNull => false
  | JBool b => b
  | JNum n => negb (n =? 0)
  | JStr s => negb (s =? "")%string
  | JArr _ | JObj _ => true
  end.

(** [a || b]: the left operand when it is truthy, else the right one. *)
Definition or (a b : JsValue) : JsValue := if truthy a then a else b.

(** Number::toString on an integer: its decimal numeral. *)
Definition Number_toString (n : Z) : string :=
  NilZero.string_of_int (Z.to_int n).

Fixpoint join (sep : string) (l : list string) : string :=
  match l with
  | [] => ""
  | [x] => x
  | x :: rest => x ++ sep ++ join sep rest
  end.

(** ToString, as applied by a template literal and by the [Error]
    constructor to its message.  Objects and arrays are the plain ones
    [JSON.parse] builds. *)
Fixpoint ToString (v : JsValue) : string :=
  match v with
  | JUndefined => "undefined"
  | JNull => "null"
  | JBool true => "true"
  | JBool false => "false"
  | JNum n => Number_toString n
  | JStr s => s
  | JArr xs =>
      join ","
        (map (fun x => match x with
                       | JUndefined | JNull => ""
                       | _ => ToString x
                       end) xs)
  | JObj _ => "[object Object]"
  end.

Fixpoint lookup (k : string) (fields : list (string * JsValue)) : option JsValue :=
  match fields with
  | [] => None
  | (k', v) :: rest => if (k =? k')%string then Some v else lookup k rest
  end.

(** An optional field of a typed record, seen as a JavaScript value. *)
Definition of_option {A : Type} (inj : A -> JsValue) (o : option A) : JsValue :=
  match o with
  | Some a => inj a
  | None => JUndefined
  end.

Definition nullish (v : JsValue) : bool :=
  match v with
  | JUndefined | JNull => true
  | _ => false
  end.

(** [String.prototype.replace(searchValue, replaceValue)] with a string
    pattern: only the first occurrence, wherever it is, is replaced.
    (The replacement text used by this program is the empty string, so
    the [$]-patterns of the replacement never come into play.) *)
Fixpoint drop (n : nat) (s : string) : string :=
  match n, s with
  | O, _ => s
  | S n', String _ s' => drop n' s'
  | S _, EmptyString => EmptyString
  end.

Fixpoint String_replace (pat rep s : string) : string :=
  if prefix pat s then rep ++ drop (String.length pat) s
  else match s with
       | EmptyString => s
       | String c s' => String c (String_replace pat rep s')
       end.

(** [String.prototype.includes]. *)
Fixpoint String_includes (pat s : string) : bool :=
  if prefix pat s then true
  else match s with
       | EmptyString => false
       | String _ s' => String_includes pat s'
       end.

End JS.
Import JS.

(* ------------------------------------------------------------------ *)
(** ** types.ts *)

(** [class LimitlyError extends Error]: message, statusCode and the
    optional response ([JUndefined] when the constructor got none). *)
Record LimitlyError : Type := mkLimitlyError {
  message : string;
  statusCode : Z;
  response : JsValue
}.

(** [new LimitlyError(message, statusCode, response?)].  [super(message)]
    stores ToString of its argument, and the empty string for
    [undefined]. *)
Definition new_LimitlyError (msg : JsValue) (code : Z) (resp : JsValue) : LimitlyError :=
  {| message := match msg with JUndefined => "" | _ => ToString msg end;
     statusCode := code;
     response := resp |}.

(** [interface RequestOptions]. *)
Record RequestOptions : Type := mkRequestOptions {
  ro_timeout : option Z;
  ro_headers : option (list (string * string));
  ro_cache : option bool;
  ro_revalidate : option Z
}.

(** [interface LimitlyConfig]. *)
Record LimitlyConfig : Type := mkLimitlyConfig {
  cfg_apiKey : string;
  cfg_baseUrl : option string;
  cfg_timeout : option Z
}.

(* ------------------------------------------------------------------ *)
(** ** The transport (axios) and what can be thrown *)

(** The fields of [AxiosRequestConfig] this program sets. *)
Record AxiosRequestConfig : Type := mkAxiosRequestConfig {
  ax_method : option string;
  ax_data : JsValue;
  ax_headers : option (list (string * string));
  ax_timeout : option Z
}.

(** The fields of [AxiosResponse] this program reads. *)
Record AxiosResponse : Type := mkAxiosResponse {
  resp_data : JsValue;
  resp_status : Z;
  resp_statusText : string
}.

(** A thrown object that is not a [LimitlyError], described by the
    properties the program reads from it: [error.response],
    whether [error.request] is truthy, and [error.message]. *)
Record ErrorObject : Type := mkErrorObject {
  err_name : string;
  err_message : JsValue;
  err_response : option AxiosResponse;
  err_request : bool
}.

(** A thrown value, split by [instanceof LimitlyError]. *)
Inductive Exn : Type :=
| ExnLimitly (e : LimitlyError)
| ExnObject (o : ErrorObject).

Definition new_Error (msg : string) : Exn :=
  ExnObject {| err_name := "Error"; err_message := JStr msg;
               err_response := None; err_request := false |}.

Definition new_TypeError (msg : string) : Exn :=
  ExnObject {| err_name := "TypeError"; err_message := JStr msg;
               err_response := None; err_request := false |}.

(** How an evaluation (or an awaited promise) ends: with a value, or
    with a thrown value (a rejection). *)
Inductive Completion (A : Type) : Type :=
| Normal (a : A)
| Abrupt (e : Exn).
Arguments Normal {A} a.
Arguments Abrupt {A} e.

(** [fetch] API values of the handler-wrapping adapter. *)
Record WebRequest : Type := mkWebRequest {
  request_headers : list (string * string);
  request_url : string;
  request_method : string
}.

Record Response : Type := mkResponse {
  status : Z;
  body : JsValue
}.

(** [Response.json(data, { status })]. *)
Definition Response_json (data : JsValue) (st : Z) : Response :=
  {| status := st; body := data |}.

(** The request object of the callback middleware ([req: any]), as the
    fields the middleware reads. *)
Record NodeRequest : Type := mkNodeRequest {
  req_headers : option (list (string * string));
  req_url : option string;
  req_path : option string;
  req_method : option string
}.

(** ** Observable effects

    Every call the program makes on a collaborator is recorded, in
    order.  Caller-supplied hooks and the host's [res] / [next] are
    taken to return normally; the wrapped handler is not (see
    [HandlerOutcome]). *)
Inductive Event : Type :=
| EvAxios (url : string) (config : AxiosRequestConfig)
| EvOnValidationError (req : NodeRequest) (error : Exn)
| EvOnRateLimitExceeded (req : NodeRequest)
| EvResStatus (code : Z)
| EvResJson (payload : JsValue)
| EvNext
| EvOverride (request : WebRequest)
| EvHandler (request : WebRequest) (args : list JsValue)
| EvConsoleError (label : string) (error : Exn).

(** A computation: the calls it made and how it ended. *)
Definition Eff (A : Type) : Type := (list Event * Completion A)%type.

Definition ret {A : Type} (a : A) : Eff A := ([], Normal a).

Definition throw {A : Type} (e : Exn) : Eff A := ([], Abrupt e).

Definition emit (ev : Event) : Eff unit := ([ev], Normal tt).

Definition bind {A B : Type} (m : Eff A) (k : A -> Eff B) : Eff B :=
  match m with
  | (t, Normal a) => let (t', r) := k a in ((t ++ t')%list, r)
  | (t, Abrupt e) => (t, Abrupt e)
  end.

(** [try { m } catch (error) { h error }]. *)
Definition try_catch {A : Type} (m : Eff A) (h : Exn -> Eff A) : Eff A :=
  match m with
  | (t, Abrupt e) => let (t', r) := h e in ((t ++ t')%list, r)
  | (t, Normal a) => (t, Normal a)
  end.

Definition lift {A : Type} (c : Completion A) : Eff A := ([], c).

Declare Scope eff_scope.
Delimit Scope eff_scope with eff.
Notation "x <- m ;; k" := (bind m (fun x => k))
  (at level 61, m at next level, right associativity) : eff_scope.
Notation "m ;;; k" := (bind m (fun _ => k))
  (at level 61, right associativity) : eff_scope.
Open Scope eff_scope.

(** Reading property [k] of [v]: a TypeError on [null] and [undefined],
    the own property of an object, [undefined] elsewhere ([k] is never
    the name of a built-in member here). *)
Definition get_prop (v : JsValue) (k : string) : Completion JsValue :=
  match v with
  | JUndefined =>
      Abrupt (new_TypeError
        ("Cannot read properties of undefined (reading '" ++ k ++ "')"))
  | JNull =>
      Abrupt (new_TypeError
        ("Cannot read properties of null (reading '" ++ k ++ "')"))
  | JObj fields =>
      Normal (match lookup k fields with Some x => x | None => JUndefined end)
  | _ => Normal JUndefined
  end.

(** Object spread [{ ...target, ...source }] on string-valued objects:
    a key already there keeps its place and takes the later value. *)
Fixpoint set_key (k v : string) (o : list (string * string)) : list (string * string) :=
  match o with
  | [] => [(k, v)]
  | (k', v') :: rest =>
      if (k =? k')%string then (k, v) :: rest else (k', v') :: set_key k v rest
  end.

Definition spread (target : list (string * string)) (source : option (list (string * string)))
  : list (string * string) :=
  match source with
  | None => target
  | Some src => fold_left (fun acc kv => set_key (fst kv) (snd kv) acc) src target
  end.

(** [a || b] on optional numbers and optional strings. *)
Definition or_num (a : option Z) (b : Z) : Z :=
  match a with
  | Some n => if n =? 0 then b else n
  | None => b
  end.

Definition or_str (a : option string) (b : string) : string :=
  match a with
  | Some s => if (s =? "")%string then b else s
  | None => b
  end.

Definition and_then {A B : Type} (o : option A) (f : A -> option B) : option B :=
  match o with
  | Some a => f a
  | None => None
  end.

(** [if (hook) { hook(...) }]. *)
Definition when_provided (provided : bool) (call : Event) : Eff unit :=
  if provided then emit call else ret tt.

(* ------------------------------------------------------------------ *)
(** ** Platform pieces: header lookup and [new URL(..).pathname] *)

Fixpoint lookup_str (k : string) (o : list (string * string)) : option string :=
  match o with
  | [] => None
  | (k', v) :: rest => if (k =? k')%string then Some v else lookup_str k rest
  end.

Definition in_range (lo hi : N) (c : ascii) : bool :=
  ((lo <=? N_of_ascii c) && (N_of_ascii c <=? hi))%N.

Definition is_upper : ascii -> bool := in_range 65 90.
Definition is_lower : ascii -> bool := in_range 97 122.
Definition is_digit : ascii -> bool := in_range 48 57.

Definition to_lower (c : ascii) : ascii :=
  if is_upper c then ascii_of_N (N_of_ascii c + 32) else c.

Fixpoint toLowerCase (s : string) : string :=
  match s with
  | EmptyString => EmptyString
  | String c s' => String (to_lower c) (toLowerCase s')
  end.

(** [Headers.get(name)]: the header list holds lower-case names, one
    entry per name, and the lookup lower-cases [name]. *)
Definition Headers_get (hs : list (string * string)) (name : string) : option string :=
  lookup_str (toLowerCase name) hs.

Definition is_scheme_char (c : ascii) : bool :=
  is_upper c || is_lower c || is_digit c
  || (c =? "+")%char || (c =? "-")%char || (c =? ".")%char.

Definition is_path_end (c : ascii) : bool := (c =? "?")%char || (c =? "#")%char.

Definition is_authority_end (c : ascii) : bool := (c =? "/")%char || is_path_end c.

Fixpoint take_until (stop : ascii -> bool) (s : string) : string :=
  match s with
  | EmptyString => EmptyString
  | String c s' => if stop c then EmptyString else String c (take_until stop s')
  end.

Fixpoint drop_until (stop : ascii -> bool) (s : string) : string :=
  match s with
  | EmptyString => EmptyString
  | String c s' => if stop c then s else drop_until stop s'
  end.

(** [new URL(s).pathname] for the absolute hierarchical URLs a
    [Request.url] holds ([scheme://authority/path?query#fragment],
    already serialized, so the path needs no further normalization):
    the text from the first [/] after the authority up to the first
    [?] or [#], and [/] when that is empty.  A string with no
    [scheme://] in front makes the constructor throw. *)
Definition URL_pathname (s : string) : Completion string :=
  let invalid := Abrupt (new_TypeError "Invalid URL") in
  match s with
  | EmptyString => invalid
  | String c _ =>
      if is_upper c || is_lower c then
        let rest := drop_until (fun x => negb (is_scheme_char x)) s in
        if prefix "://" rest then
          let path := take_until is_path_end (drop_until is_authority_end (drop 3 rest)) in
          Normal (if (path =? "")%string then "/" else path)
        else invalid
      else invalid
  end.

(* ------------------------------------------------------------------ *)
(** ** client.ts *)

Record HttpClient : Type := mkHttpClient {
  apiKey : string;
  baseUrl : string;
  timeout : Z
}.

(** [HttpClient.constructor]. *)
Definition new_HttpClient (config : LimitlyConfig) : HttpClient :=
  {| apiKey := cfg_apiKey config;
     baseUrl := or_str (cfg_baseUrl config)
                  "https://xfkyofkqbukqtxcuapvf.supabase.co/functions/v1";
     timeout := or_num (cfg_timeout config) 30000 |}.

Section Program.

(** The transport: what [axios(url, config)] settles with.  *)
Variable axios : string -> AxiosRequestConfig -> Completion AxiosResponse.

Definition await_axios (url : string) (config : AxiosRequestConfig) : Eff AxiosResponse :=
  emit (EvAxios url config) ;;; lift (axios url config).

(** The request configuration [makeRequest] builds. *)
Definition requestConfig (this : HttpClient) (options : AxiosRequestConfig)
    (requestOptions : option RequestOptions) : AxiosRequestConfig :=
  {| ax_method := ax_method options;
     ax_data := ax_data options;
     ax_headers :=
       Some (spread
               (spread [("Authorization", "Bearer " ++ apiKey this);
                        ("Content-Type", "application/json")]
                       (ax_headers options))
               (and_then requestOptions ro_headers));
     ax_timeout := Some (or_num (and_then requestOptions ro_timeout) (timeout this)) |}.

(** The [catch] block of [makeRequest]. *)
Definition normalize (error : Exn) : Eff JsValue :=
  match error with
  | ExnLimitly _ => throw error
  | ExnObject o =>
      match err_response o with
      | Some r =>
          let data := resp_data r in
          e <- lift (get_prop data "error") ;;
          throw (ExnLimitly
                   (new_LimitlyError
                      (or e (JStr ("HTTP " ++ Number_toString (resp_status r)
                                     ++ ": " ++ resp_statusText r)))
                      (resp_status r)
                      data))
      | None =>
          if err_request o then
            throw (ExnLimitly
                     (new_LimitlyError
                        (JStr ("Network error: " ++ ToString (err_message o)))
                        0
                        (JObj [("originalError", err_message o)])))
          else
            throw (ExnLimitly
                     (new_LimitlyError (JStr "Unknown error occurred") 0 JUndefined))
      end
  end.

(** [HttpClient.makeRequest]. *)
Definition makeRequest (this : HttpClient) (endpoint : string)
    (options : AxiosRequestConfig) (requestOptions : option RequestOptions) : Eff JsValue :=
  let url := baseUrl this ++ endpoint in
  try_catch
    (response <- await_axios url (requestConfig this options requestOptions) ;;
     ret (resp_data response))
    normalize.

Definition verb (m : string) (data : JsValue) : AxiosRequestConfig :=
  {| ax_method := Some m; ax_data := data; ax_headers := None; ax_timeout := None |}.

Definition get (this : HttpClient) (endpoint : string)
    (requestOptions : option RequestOptions) : Eff JsValue :=
  makeRequest this endpoint (verb "GET" JUndefined) requestOptions.

Definition post (this : HttpClient) (endpoint : string) (data : JsValue)
    (requestOptions : option RequestOptions) : Eff JsValue :=
  makeRequest this endpoint (verb "POST" data) requestOptions.

Definition put (this : HttpClient) (endpoint : string) (data : JsValue)
    (requestOptions : option RequestOptions) : Eff JsValue :=
  makeRequest this endpoint (verb "PUT" data) requestOptions.

Definition delete (this : HttpClient) (endpoint : string)
    (requestOptions : option RequestOptions) : Eff JsValue :=
  makeRequest this endpoint (verb "DELETE" JUndefined) requestOptions.

(* ------------------------------------------------------------------ *)
(** ** modules/validation.ts *)

Definition validateRequest (client : HttpClient) (data : JsValue)
    (options : option RequestOptions) : Eff JsValue :=
  post client "/validate" data options.

Definition validate (client : HttpClient) (api_key endpoint method : JsValue)
    (options : option RequestOptions) : Eff JsValue :=
  validateRequest client
    (JObj [("api_key", api_key); ("endpoint", endpoint); ("method", method)])
    options.

(* ------------------------------------------------------------------ *)
(** ** index.ts *)

Record Limitly : Type := mkLimitly {
  client : HttpClient
}.

Definition new_Limitly (config : LimitlyConfig) : Limitly :=
  {| client := new_HttpClient config |}.

(** [h?.replace('Bearer ', '')] on a header value that may be missing. *)
Definition strip_bearer (h : option string) : JsValue :=
  match h with
  | Some v => JStr (String_replace "Bearer " "" v)
  | None => JUndefined
  end.

(** Options of [createMiddleware]; a hook is known by whether it was
    supplied, its call being recorded with its arguments. *)
Record MiddlewareOptions : Type := mkMiddlewareOptions {
  mw_apiKeyHeader : option string;
  mw_onRateLimitExceeded : bool;
  mw_onValidationError : bool
}.

Definition supplied (options : option MiddlewareOptions)
    (hook : MiddlewareOptions -> bool) : bool :=
  match options with
  | Some o => hook o
  | None => false
  end.

(** [req.headers?.[name]]. *)
Definition req_header (req : NodeRequest) (name : string) : option string :=
  and_then (req_headers req) (lookup_str name).

(** The [apiKey] expression of [createMiddleware]. *)
Definition createMiddleware_apiKey (apiKeyHeader : string) (req : NodeRequest) : JsValue :=
  or (strip_bearer (req_header req apiKeyHeader))
     (strip_bearer (req_header req "authorization")).

(** [req.url || req.path]. *)
Definition createMiddleware_endpoint (req : NodeRequest) : JsValue :=
  or (of_option JStr (req_url req)) (of_option JStr (req_path req)).

(** The function [createMiddleware(options)] returns, applied to
    [req], [res] and an optional [next]. *)
Definition createMiddleware (this : Limitly) (options : option MiddlewareOptions)
    (req : NodeRequest) (next : bool) : Eff unit :=
  let apiKeyHeader := or_str (and_then options mw_apiKeyHeader) "authorization" in
  try_catch
    (let apiKey := createMiddleware_apiKey apiKeyHeader req in
     if negb (truthy apiKey) then
       when_provided (supplied options mw_onValidationError)
         (EvOnValidationError req (new_Error "API Key required")) ;;;
       emit (EvResStatus 401) ;;;
       emit (EvResJson (JObj [("error", JStr "API Key required")]))
     else
       result <- validate (client this) apiKey (createMiddleware_endpoint req)
                   (of_option JStr (req_method req)) None ;;
       success <- lift (get_prop result "success") ;;
       if negb (truthy success) then
         when_provided (supplied options mw_onRateLimitExceeded)
           (EvOnRateLimitExceeded req) ;;;
         emit (EvResStatus 429) ;;;
         details <- lift (get_prop result "details") ;;
         emit (EvResJson (JObj [("error", JStr "Rate limit exceeded");
                                ("details", details)]))
       else
         if next then emit EvNext else ret tt)
    (fun error =>
       when_provided (supplied options mw_onValidationError)
         (EvOnValidationError req error) ;;;
       emit (EvResStatus 500) ;;;
       emit (EvResJson (JObj [("error", JStr "Validation error")]))).

(** What calling the wrapped handler does: it throws before returning,
    or it returns a promise that is fulfilled or rejected. *)
Inductive HandlerOutcome : Type :=
| HandlerThrows (e : Exn)
| HandlerReturns (promise : Completion Response).

Definition Handler : Type := WebRequest -> list JsValue -> HandlerOutcome.

Record RateLimitOptions : Type := mkRateLimitOptions {
  rl_apiKeyHeader : option string;
  rl_onRateLimitExceeded : option (WebRequest -> Response)
}.

(** What a [return] inside the [async] wrapper hands back: a response,
    or the handler's promise, which is not awaited inside the [try]. *)
Inductive Returned : Type :=
| RetValue (r : Response)
| RetPromise (promise : Completion Response).

(** The [apiKey] expression of [withRateLimit]. *)
Definition withRateLimit_apiKey (apiKeyHeader : string) (request : WebRequest) : JsValue :=
  or (strip_bearer (Headers_get (request_headers request) apiKeyHeader))
     (strip_bearer (Headers_get (request_headers request) "authorization")).

(** The [try] block of the wrapper. *)
Definition withRateLimit_try (this : Limitly) (handler : Handler)
    (options : option RateLimitOptions) (apiKeyHeader : string)
    (request : WebRequest) (args : list JsValue) : Eff Returned :=
  let apiKey := withRateLimit_apiKey apiKeyHeader request in
  if negb (truthy apiKey) then
    ret (RetValue (Response_json (JObj [("error", JStr "API Key required")]) 401))
  else
    pathname <- lift (URL_pathname (request_url request)) ;;
    result <- validate (client this) apiKey (JStr pathname)
                (JStr (request_method request)) None ;;
    success <- lift (get_prop result "success") ;;
    if negb (truthy success) then
      match and_then options rl_onRateLimitExceeded with
      | Some onRateLimitExceeded =>
          emit (EvOverride request) ;;;
          ret (RetValue (onRateLimitExceeded request))
      | None =>
          details <- lift (get_prop result "details") ;;
          ret (RetValue (Response_json
                           (JObj [("error", JStr "Rate limit exceeded");
                                  ("details", details)])
                           429))
      end
    else
      emit (EvHandler request args) ;;;
      match handler request args with
      | HandlerThrows e => throw e
      | HandlerReturns promise => ret (RetPromise promise)
      end.

(** The function [withRateLimit(handler, options)] returns, applied to
    a request and the extra arguments.  Its result is the promise the
    [async] function settles with: a returned promise is adopted. *)
Definition withRateLimit (this : Limitly) (handler : Handler)
    (options : option RateLimitOptions)
    (request : WebRequest) (args : list JsValue) : Eff Response :=
  let apiKeyHeader := or_str (and_then options rl_apiKeyHeader) "authorization" in
  returned <-
    try_catch
      (withRateLimit_try this handler options apiKeyHeader request args)
      (fun error =>
         emit (EvConsoleError "Rate limiting error:" error) ;;;
         ret (RetValue (Response_json (JObj [("error", JStr "Validation error")]) 500))) ;;
  match returned with
  | RetValue r => ret r
  | RetPromise promise => lift promise
  end.

End Program.

(* ------------------------------------------------------------------ *)
(** ** Fixtures, after __tests__/index.test.ts *)

(** [mockAxios.mockResolvedValue({ data })]. *)
Definition mockResolvedValue (data : JsValue)
  : string -> AxiosRequestConfig -> Completion AxiosResponse :=
  fun _ _ => Normal {| resp_data := data; resp_status := 200; resp_statusText := "OK" |}.

(** [mockAxios.mockRejectedValue(error)]. *)
Definition mockRejectedValue (error : Exn)
  : string -> AxiosRequestConfig -> Completion AxiosResponse :=
  fun _ _ => Abrupt error.

(** An error object carrying an HTTP error response, as the test's
    [serverError]. *)
Definition serverError (st : Z) (text : string) (data : JsValue) : Exn :=
  ExnObject {| err_name := "AxiosError"; err_message := JUndefined;
               err_response := Some {| resp_data := data; resp_status := st;
                                       resp_statusText := text |};
               err_request := false |}.

(** An error with a request and no response, as the test's
    [networkError]. *)
Definition networkError (msg : string) : Exn :=
  ExnObject {| err_name := "Error"; err_message := JStr msg;
               err_response := None; err_request := true |}.

Definition test_config : LimitlyConfig :=
  {| cfg_apiKey := "test_api_key"; cfg_baseUrl := None; cfg_timeout := None |}.

Definition limitly : Limitly := new_Limitly test_config.

(** Calls that reach the remote API, and calls that delegate. *)
Definition is_remote_call (ev : Event) : bool :=
  match ev with
  | EvAxios _ _ => true
  | _ => false
  end.

Definition is_delegation (ev : Event) : bool :=
  match ev with
  | EvNext | EvHandler _ _ => true
  | _ => false
  end.

(* ------------------------------------------------------------------ *)
(** ** Vocabulary of the statements *)

(** The header name each adapter reads first. *)
Definition mw_header (options : option MiddlewareOptions) : string :=
  or_str (and_then options mw_apiKeyHeader) "authorization".

Definition rl_header (options : option RateLimitOptions) : string :=
  or_str (and_then options rl_apiKeyHeader) "authorization".

(** The credential of both adapters: the first truthy one among the
    configured header and [authorization], each with its first
    ["Bearer "] removed. *)
Definition resolves_to (configured authorization : option string) (v : string) : Prop :=
  (configured = Some v /\ String_replace "Bearer " "" v <> "")
  \/ ((configured = None \/
       exists w, configured = Some w /\ String_replace "Bearer " "" w = "")
      /\ authorization = Some v).

(** No event of the trace reaches the remote API or delegates. *)
Definition no_remote_call_nor_delegation (t : list Event) : bool :=
  forallb (fun ev => negb (is_remote_call ev || is_delegation ev)) t.

(** The bodies and responses the gates build. *)
Definition rate_limit_body (details : JsValue) : JsValue :=
  JObj [("error", JStr "Rate limit exceeded"); ("details", details)].

Definition validation_error_500 : Response :=
  Response_json (JObj [("error", JStr "Validation error")]) 500.

Definition console_error (error : Exn) : Event :=
  EvConsoleError "Rate limiting error:" error.

(** The [endpoint] field of the body an outbound call carries. *)
Definition endpoint_of (ev : Event) : Completion JsValue :=
  match ev with
  | EvAxios _ config => get_prop (ax_data config) "endpoint"
  | _ => Normal JUndefined
  end.

(** Requests, outcomes and options of the gate scenarios. *)
Definition req_without_credential : NodeRequest :=
  {| req_headers := Some [("accept", "application/json")];
     req_url := Some "/api/users"; req_path := None; req_method := Some "GET" |}.

Definition req_with_credential : NodeRequest :=
  {| req_headers := Some [("authorization", "Bearer abc")];
     req_url := Some "/api/users?page=2"; req_path := Some "/api/users";
     req_method := Some "GET" |}.

Definition request_without_credential : WebRequest :=
  {| request_headers := [("accept", "application/json")];
     request_url := "https://example.com/api/users";
     request_method := "GET" |}.

Definition request_with_credential : WebRequest :=
  {| request_headers := [("authorization", "Bearer abc")];
     request_url := "https://example.com/api/users?page=2";
     request_method := "GET" |}.

Definition request_with_relative_url : WebRequest :=
  {| request_headers := [("authorization", "Bearer abc")];
     request_url := "/api/users?page=2";
     request_method := "GET" |}.

Definition usage_details : JsValue :=
  JObj [("current_usage", JNum 100); ("limit", JNum 100);
        ("plan_name", JStr "Basic Plan")].

Definition denied : JsValue :=
  JObj [("success", JBool false); ("details", usage_details)].

Definition allowed : JsValue := JObj [("success", JBool true)].

Definition both_hooks : option MiddlewareOptions :=
  Some {| mw_apiKeyHeader := None; mw_onRateLimitExceeded := true;
          mw_onValidationError := true |}.

Definition failing_handler : Handler :=
  fun _ _ => HandlerReturns (Abrupt (new_Error "boom")).

(* ------------------------------------------------------------------ *)
(** ** client.ts, the accessors *)

(** [HttpClient.getBaseUrl]. *)
Definition getBaseUrl (this : HttpClient) : string := baseUrl this.

(** [HttpClient.getApiKey]: [this.apiKey.substring(0, 8) + '...']. *)
Definition getApiKey (this : HttpClient) : string :=
  substring 0 8 (apiKey this) ++ "...".

(* ------------------------------------------------------------------ *)
(** ** modules/validation.ts, [validateWithContext] *)

(** [...(context && { context })]: spreading a falsy value adds no
    property, spreading [{ context }] adds that one. *)
Definition spread_context (context : JsValue) : list (string * JsValue) :=
  if truthy context then [("context", context)] else [].

Definition validateWithContext
    (axios : string -> AxiosRequestConfig -> Completion AxiosResponse)
    (client : HttpClient) (api_key endpoint method context : JsValue)
    (options : option RequestOptions) : Eff JsValue :=
  post axios client "/validate"
    (JObj ([("api_key", api_key); ("endpoint", endpoint); ("method", method)]
           ++ spread_context context)%list)
    options.

(* ------------------------------------------------------------------ *)
(** ** modules/api-keys.ts *)

Module ApiKeysModule.
Section Methods.
Variable axios : string -> AxiosRequestConfig -> Completion AxiosResponse.
Variable client : HttpClient.

Definition create (data : JsValue) (options : option RequestOptions) : Eff JsValue :=
  post axios client "/keys" data options.

Definition update (keyId : string) (data : JsValue) (options : option RequestOptions)
  : Eff JsValue :=
  put axios client ("/keys/" ++ keyId) data options.

Definition regenerate (keyId : string) (options : option RequestOptions) : Eff JsValue :=
  post axios client ("/keys/" ++ keyId ++ "/regenerate") JUndefined options.

Definition getUsage (keyId : string) (options : option RequestOptions) : Eff JsValue :=
  get axios client ("/keys/" ++ keyId ++ "/usage") options.

Definition getRequests (keyId : string) (options : option RequestOptions) : Eff JsValue :=
  get axios client ("/keys/" ++ keyId ++ "/requests") options.

Definition listWithUsage (options : option RequestOptions) : Eff JsValue :=
  get axios client "/keys/with-usage" options.

Definition delete (keyId : string) (options : option RequestOptions) : Eff JsValue :=
  delete axios client ("/keys/" ++ keyId) options.

Definition list (options : option RequestOptions) : Eff JsValue :=
  get axios client "/keys" options.

Definition get (keyId : string) (options : option RequestOptions) : Eff JsValue :=
  get axios client ("/keys/" ++ keyId) options.

End Methods.
End ApiKeysModule.

(* ------------------------------------------------------------------ *)
(** ** modules/plans.ts *)

Module PlansModule.
Section Methods.
Variable axios : string -> AxiosRequestConfig -> Completion AxiosResponse.
Variable client : HttpClient.

Definition create (data : JsValue) (options : option RequestOptions) : Eff JsValue :=
  post axios client "/plans" data options.

Definition update (planId : string) (data : JsValue) (options : option RequestOptions)
  : Eff JsValue :=
  put axios client ("/plans/" ++ planId) data options.

Definition getUsage (planId : string) (options : option RequestOptions) : Eff JsValue :=
  get axios client ("/plans/" ++ planId ++ "/usage") options.

Definition getUsers (planId : string) (options : option RequestOptions) : Eff JsValue :=
  get axios client ("/plans/" ++ planId ++ "/users") options.

Definition getKeys (planId : string) (options : option RequestOptions) : Eff JsValue :=
  get axios client ("/plans/" ++ planId ++ "/keys") options.

Definition listWithUsage (options : option RequestOptions) : Eff JsValue :=
  get axios client "/plans/with-usage" options.

Definition delete (planId : string) (options : option RequestOptions) : Eff JsValue :=
  delete axios client ("/plans/" ++ planId) options.

Definition list (options : option RequestOptions) : Eff JsValue :=
  get axios client "/plans" options.

Definition get (planId : string) (options : option RequestOptions) : Eff JsValue :=
  get axios client ("/plans/" ++ planId) options.

End Methods.
End PlansModule.

(* ------------------------------------------------------------------ *)
(** ** modules/users.ts *)

(** User ids are numbers; a template literal prints them with
    Number::toString. *)
Module UsersModule.
Section Methods.
Variable axios : string -> AxiosRequestConfig -> Completion AxiosResponse.
Variable client : HttpClient.

Definition create (data : JsValue) (options : option RequestOptions) : Eff JsValue :=
  post axios client "/users" data options.

Definition update (userId : Z) (data : JsValue) (options : option RequestOptions)
  : Eff JsValue :=
  put axios client ("/users/" ++ Number_toString userId) data options.

Definition getUsage (userId : Z) (options : option RequestOptions) : Eff JsValue :=
  get axios client ("/users/" ++ Number_toString userId ++ "/usage") options.

Definition getKeys (userId : Z) (options : option RequestOptions) : Eff JsValue :=
  get axios client ("/users/" ++ Number_toString userId ++ "/keys") options.

Definition createKey (userId : Z) (data : JsValue) (options : option RequestOptions)
  : Eff JsValue :=
  post axios client ("/users/" ++ Number_toString userId ++ "/keys") data options.

Definition listWithUsage (options : option RequestOptions) : Eff JsValue :=
  get axios client "/users/with-usage" options.

Definition delete (userId : Z) (options : option RequestOptions) : Eff JsValue :=
  delete axios client ("/users/" ++ Number_toString userId) options.

Definition list (options : option RequestOptions) : Eff JsValue :=
  get axios client "/users" options.

Definition get (userId : Z) (options : option RequestOptions) : Eff JsValue :=
  get axios client ("/users/" ++ Number_toString userId) options.

End Methods.
End UsersModule.

(* ------------------------------------------------------------------ *)
(** ** Vocabulary of the further statements *)


(** How often a trace calls the remote API, [next] and the handler. *)
Definition remote_calls (t : list Event) : nat :=
  List.length (filter is_remote_call t).


(** The URL and the configuration of an outbound call. *)
Definition url_of (ev : Event) : option string :=
  match ev with
  | EvAxios url _ => Some url
  | _ => None
  end.

Definition config_of (ev : Event) : option AxiosRequestConfig :=
  match ev with
  | EvAxios _ config => Some config
  | _ => None
  end.

(** The headers an outbound call carries. *)
Definition outbound_headers (this : HttpClient) (options : AxiosRequestConfig)
    (requestOptions : option RequestOptions) : list (string * string) :=
  match ax_headers (requestConfig this options requestOptions) with
  | Some hs => hs
  | None => []
  end.

(** The value an object spread leaves under [k]: the last one written. *)
Definition last_written (k : string) (source : option (list (string * string)))
  : option string :=
  match source with
  | Some src => lookup_str k (rev src)
  | None => None
  end.


(** Property [k] of [v], [undefined] where it cannot be read. *)
Definition field (v : JsValue) (k : string) : JsValue :=
  match get_prop v k with
  | Normal x => x
  | Abrupt _ => JUndefined
  end.

(** The call of a hook that may not have been supplied. *)
Definition hook_call (provided : bool) (call : Event) : list Event :=
  if provided then [call] else [].

(** [res.status(code).json(payload)]. *)
Definition answer (code : Z) (payload : JsValue) : list Event :=
  [EvResStatus code; EvResJson payload].

(** The outbound call of the validate operation. *)
Definition validation_call (this : Limitly) (api_key endpoint method : JsValue) : Event :=
  EvAxios (baseUrl (client this) ++ "/validate")
    (requestConfig (client this)
       (verb "POST" (JObj [("api_key", api_key); ("endpoint", endpoint);
                           ("method", method)]))
       None).

(** A handler that answers. *)
Definition ok_response : Response :=
  Response_json (JObj [("message", JStr "Request allowed")]) 200.

Definition ok_handler : Handler := fun _ _ => HandlerReturns (Normal ok_response).

(** The configuration of the gates' validate call: no per-call options. *)
Definition validation_config (this : Limitly) (api_key endpoint method : JsValue)
  : AxiosRequestConfig :=
  {| ax_method := Some "POST";
     ax_data := JObj [("api_key", api_key); ("endpoint", endpoint); ("method", method)];
     ax_headers := Some [("Authorization", "Bearer " ++ apiKey (client this));
                         ("Content-Type", "application/json")];
     ax_timeout := Some (timeout (client this)) |}.

(* ================================================================== *)
(** * Properties *)

Example ex_tostring :
  ToString (JNum 401) = "401" /\ ToString (JNum 0) = "0" /\
  ToString (JNum (-3)) = "-3" /\
  ToString (JArr [JNum 1; JNull; JStr "a"]) = "1,,a".
Proof. repeat split; reflexivity. Qed.

Example ex_replace :
  String_replace "Bearer " "" "Bearer abc" = "abc" /\
  String_replace "Bearer " "" "Token Bearer abc" = "Token abc" /\
  String_replace "Bearer " "" "bearer abc" = "bearer abc" /\
  String_replace "Bearer " "" "Bearer Bearer x" = "Bearer x".
Proof. repeat split; reflexivity. Qed.

Example ex_pathname :
  URL_pathname "https://example.com/api/users?page=2" = Normal "/api/users" /\
  URL_pathname "https://example.com" = Normal "/" /\
  URL_pathname "http://h/a/b#f" = Normal "/a/b".
Proof. repeat split; reflexivity. Qed.

(** ** The request executor *)

Section Executor.

Variable axios : string -> AxiosRequestConfig -> Completion AxiosResponse.
Variable this : HttpClient.
Variable endpoint : string.
Variable options : AxiosRequestConfig.
Variable requestOptions : option RequestOptions.

Let url : string := baseUrl this ++ endpoint.
Let config : AxiosRequestConfig := requestConfig this options requestOptions.

(** The [catch] block calls no collaborator. *)
Lemma normalize_silent (error : Exn) : fst (normalize error) = [].
Proof.
  destruct error as [e | o]; [reflexivity |].
  unfold normalize. destruct (err_response o) as [r |].
  - destruct (resp_data r); reflexivity.
  - destruct (err_request o); reflexivity.
Qed.

(** The [catch] block never completes normally. *)
Lemma normalize_throws (error : Exn) : exists e, snd (normalize error) = Abrupt e.
Proof.
  destruct error as [e | o]; [eexists; reflexivity |].
  unfold normalize. destruct (err_response o) as [r |].
  - destruct (resp_data r); eexists; reflexivity.
  - destruct (err_request o); eexists; reflexivity.
Qed.

(** A transport success is returned as it is, after one outbound call. *)
Lemma makeRequest_resolved (r : AxiosResponse) :
  axios url config = Normal r ->
  makeRequest axios this endpoint options requestOptions
  = ([EvAxios url config], Normal (resp_data r)).
Proof.
  intros H. unfold makeRequest, await_axios, emit, lift, bind, try_catch.
  fold url config. rewrite H. reflexivity.
Qed.

(** A transport failure goes through the [catch] block, after one
    outbound call. *)
Lemma makeRequest_rejected (error : Exn) :
  axios url config = Abrupt error ->
  makeRequest axios this endpoint options requestOptions
  = ([EvAxios url config], snd (normalize error)).
Proof.
  intros H. unfold makeRequest, await_axios, emit, lift, bind, try_catch.
  fold url config. rewrite H. simpl.
  pose proof (normalize_silent error) as Hs.
  destruct (normalize error) as [t c]. simpl in *. subst t. reflexivity.
Qed.

(** Exactly one outbound call per invocation. *)
Lemma makeRequest_one_call :
  fst (makeRequest axios this endpoint options requestOptions) = [EvAxios url config].
Proof.
  destruct (axios url config) as [r | e] eqn:H.
  - rewrite (makeRequest_resolved r H). reflexivity.
  - rewrite (makeRequest_rejected e H). reflexivity.
Qed.

(** What [makeRequest] ends with: the payload when the transport
    resolves; when it rejects, a [LimitlyError], or the TypeError of
    reading [error] off a [null] / [undefined] response body. *)
Lemma makeRequest_outcome :
  (exists r, axios url config = Normal r /\
     snd (makeRequest axios this endpoint options requestOptions) = Normal (resp_data r))
  \/ (exists e, snd (makeRequest axios this endpoint options requestOptions)
                = Abrupt (ExnLimitly e))
  \/ (exists o r msg, axios url config = Abrupt (ExnObject o) /\
        err_response o = Some r /\ nullish (resp_data r) = true /\
        snd (makeRequest axios this endpoint options requestOptions)
        = Abrupt (new_TypeError msg)).
Proof.
  destruct (axios url config) as [r | error] eqn:H.
  - left. exists r. rewrite (makeRequest_resolved r H). auto.
  - right. rewrite (makeRequest_rejected error H). simpl.
    destruct error as [e | o]; [left; eexists; reflexivity |].
    unfold normalize. destruct (err_response o) as [r |] eqn:Hr.
    + destruct (resp_data r) eqn:Hd;
        try (left; eexists; reflexivity);
        right; exists o, r; eexists; rewrite Hd;
        (split; [reflexivity | split; [exact Hr | split; reflexivity]]).
    + left. destruct (err_request o); eexists; reflexivity.
Qed.

(** C2 (amended).  When the transport rejects with an HTTP error
    response whose body is neither [null] nor [undefined], the caller
    receives a [LimitlyError] whose message is the body's [error] field
    (converted to a string) when that field is truthy, and
    ["HTTP {status}: {statusText}"] when it is missing or falsy (an
    empty string, for one); whose statusCode is the HTTP status; and
    whose response is the whole body. *)
Theorem C2_error_response_normalized (o : ErrorObject) (r : AxiosResponse) (e : JsValue) :
  axios url config = Abrupt (ExnObject o) ->
  err_response o = Some r ->
  get_prop (resp_data r) "error" = Normal e ->
  makeRequest axios this endpoint options requestOptions
  = ([EvAxios url config],
     Abrupt (ExnLimitly
       {| message := if truthy e then ToString e
                     else "HTTP " ++ Number_toString (resp_status r)
                            ++ ": " ++ resp_statusText r;
          statusCode := resp_status r;
          response := resp_data r |})).
Proof.
  intros H Hr He. rewrite (makeRequest_rejected _ H).
  unfold normalize. rewrite Hr, He. simpl.
  unfold new_LimitlyError, or.
  destruct (truthy e) eqn:Ht; [| reflexivity].
  destruct e; try discriminate; reflexivity.
Qed.

(** C3.  A request was sent and no response arrived: statusCode 0,
    message ["Network error: "] followed by the underlying message, and
    body [{originalError: message}].  Neither a response nor a request,
    and not a [LimitlyError]: statusCode 0 and message
    ["Unknown error occurred"]. *)
Theorem C3_network_and_unknown_errors (o : ErrorObject) :
  axios url config = Abrupt (ExnObject o) ->
  err_response o = None ->
  (err_request o = true ->
     makeRequest axios this endpoint options requestOptions
     = ([EvAxios url config],
        Abrupt (ExnLimitly
          {| message := "Network error: " ++ ToString (err_message o);
             statusCode := 0;
             response := JObj [("originalError", err_message o)] |})))
  /\ (err_request o = false ->
        makeRequest axios this endpoint options requestOptions
        = ([EvAxios url config],
           Abrupt (ExnLimitly
             {| message := "Unknown error occurred";
                statusCode := 0;
                response := JUndefined |}))).
Proof.
  intros H Hr. rewrite (makeRequest_rejected _ H).
  unfold normalize. rewrite Hr.
  split; intros Hq; rewrite Hq; reflexivity.
Qed.

(** C4.  A failure that already is a [LimitlyError] reaches the caller
    as the same value: same message, statusCode and body. *)
Theorem C4_LimitlyError_rethrown_unchanged (e : LimitlyError) :
  axios url config = Abrupt (ExnLimitly e) ->
  makeRequest axios this endpoint options requestOptions
  = ([EvAxios url config], Abrupt (ExnLimitly e)).
Proof.
  intros H. rewrite (makeRequest_rejected _ H). reflexivity.
Qed.

(** C5 (amended).  The timeout handed to the transport is the per-call
    [timeout] when that field is present and not 0, and the timeout the
    client captured at construction otherwise. *)
Theorem C5_effective_timeout :
  fst (makeRequest axios this endpoint options requestOptions) = [EvAxios url config]
  /\ ax_timeout config
     = Some (match and_then requestOptions ro_timeout with
             | Some n => if n =? 0 then timeout this else n
             | None => timeout this
             end)
  /\ (forall c : LimitlyConfig,
        timeout (new_HttpClient c)
        = match cfg_timeout c with
          | Some n => if n =? 0 then 30000 else n
          | None => 30000
          end).
Proof.
  split; [apply makeRequest_one_call | split; reflexivity].
Qed.

End Executor.

(** C1 (what the code does at the failing input).  An HTTP error response
    whose JSON body is [null]: the [catch] block reads [data.error] off
    [null], so the caller receives a TypeError and no [LimitlyError],
    although exactly one of payload and [LimitlyError] was promised. *)
Theorem C1_null_body_raises_TypeError
    (this : HttpClient) (endpoint : string) (options : AxiosRequestConfig)
    (requestOptions : option RequestOptions) :
  let error := serverError 500 "Internal Server Error" JNull in
  snd (makeRequest (mockRejectedValue error) this endpoint options requestOptions)
  = Abrupt (new_TypeError "Cannot read properties of null (reading 'error')")
  /\ (forall e : LimitlyError,
        snd (makeRequest (mockRejectedValue error) this endpoint options requestOptions)
        <> Abrupt (ExnLimitly e))
  /\ (forall payload : JsValue,
        snd (makeRequest (mockRejectedValue error) this endpoint options requestOptions)
        <> Normal payload).
Proof.
  intros error.
  assert (H : snd (makeRequest (mockRejectedValue error) this endpoint options requestOptions)
              = Abrupt (new_TypeError "Cannot read properties of null (reading 'error')")).
  { rewrite (makeRequest_rejected (mockRejectedValue error) this endpoint options
               requestOptions error eq_refl). reflexivity. }
  split; [exact H |]. split; intros x; rewrite H; discriminate.
Qed.

(** The test's server error: message ["Invalid API key"], statusCode 401. *)
Lemma C2_invalid_api_key_401 :
  makeRequest
    (mockRejectedValue
       (serverError 401 "Unauthorized" (JObj [("error", JStr "Invalid API key")])))
    (client limitly) "/validate" (verb "POST" JUndefined) None
  = ([EvAxios (baseUrl (client limitly) ++ "/validate")
        (requestConfig (client limitly) (verb "POST" JUndefined) None)],
     Abrupt (ExnLimitly
       {| message := "Invalid API key";
          statusCode := 401;
          response := JObj [("error", JStr "Invalid API key")] |})).
Proof.
  exact (C2_error_response_normalized
           (mockRejectedValue
              (serverError 401 "Unauthorized" (JObj [("error", JStr "Invalid API key")])))
           (client limitly) "/validate" (verb "POST" JUndefined) None
           _ _ (JStr "Invalid API key") eq_refl eq_refl eq_refl).
Defined.

(** C2 as stated fails on a body whose [error] field is present and
    empty: the message is the synthesized status line, not the field. *)
Lemma C2_empty_error_field_not_used :
  let data := JObj [("error", JStr "")] in
  lookup "error" [("error", JStr "")] = Some (JStr "")
  /\ snd (makeRequest (mockRejectedValue (serverError 400 "Bad Request" data))
            (client limitly) "/validate" (verb "POST" JUndefined) None)
     = Abrupt (ExnLimitly
         {| message := "HTTP 400: Bad Request"; statusCode := 400; response := data |})
  /\ "HTTP 400: Bad Request" <> "".
Proof.
  repeat split; discriminate.
Qed.

(** The test's network error, and an error raised before anything was
    sent. *)
Lemma C3_network_error_example :
  makeRequest (mockRejectedValue (networkError "Network error"))
    (client limitly) "/validate" (verb "POST" JUndefined) None
  = ([EvAxios (baseUrl (client limitly) ++ "/validate")
        (requestConfig (client limitly) (verb "POST" JUndefined) None)],
     Abrupt (ExnLimitly
       {| message := "Network error: Network error";
          statusCode := 0;
          response := JObj [("originalError", JStr "Network error")] |}))
  /\ snd (makeRequest (mockRejectedValue (new_TypeError "Invalid URL"))
            (client limitly) "/validate" (verb "POST" JUndefined) None)
     = Abrupt (ExnLimitly
         {| message := "Unknown error occurred"; statusCode := 0;
            response := JUndefined |}).
Proof.
  split.
  - exact (proj1 (C3_network_and_unknown_errors
                    (mockRejectedValue (networkError "Network error"))
                    (client limitly) "/validate" (verb "POST" JUndefined) None
                    _ eq_refl eq_refl) eq_refl).
  - rewrite (proj2 (C3_network_and_unknown_errors
                      (mockRejectedValue (new_TypeError "Invalid URL"))
                      (client limitly) "/validate" (verb "POST" JUndefined) None
                      _ eq_refl eq_refl) eq_refl).
    reflexivity.
Defined.

Lemma C4_rethrown_example :
  let e := {| message := "Invalid API key"; statusCode := 401; response := JNull |} in
  makeRequest (mockRejectedValue (ExnLimitly e)) (client limitly) "/keys"
    (verb "GET" JUndefined) None
  = ([EvAxios (baseUrl (client limitly) ++ "/keys")
        (requestConfig (client limitly) (verb "GET" JUndefined) None)],
     Abrupt (ExnLimitly e)).
Proof.
  exact (C4_LimitlyError_rethrown_unchanged
           (mockRejectedValue
              (ExnLimitly {| message := "Invalid API key"; statusCode := 401;
                             response := JNull |}))
           (client limitly) "/keys" (verb "GET" JUndefined) None _ eq_refl).
Defined.

(** C5 as stated fails on a per-call timeout of 0: the field is present,
    and the transport is handed the client's 30000. *)
Lemma C5_zero_timeout_ignored :
  let requestOptions :=
    Some {| ro_timeout := Some 0; ro_headers := None;
            ro_cache := None; ro_revalidate := None |} in
  exists url config,
    fst (get (mockResolvedValue JNull) (client limitly) "/keys" requestOptions)
    = [EvAxios url config]
    /\ ax_timeout config = Some 30000
    /\ ax_timeout config <> Some 0.
Proof.
  do 2 eexists. split; [reflexivity |]. split; [reflexivity | discriminate].
Qed.

(** ** Credential extraction *)

Lemma prefix_nil (s : string) : prefix "" s = true.
Proof. destruct s; reflexivity. Qed.

Lemma prefix_cons (a b : ascii) (p s : string) :
  prefix (String a p) (String b s) = if ascii_dec a b then prefix p s else false.
Proof. reflexivity. Qed.

Lemma prefix_append (p s : string) : prefix p (p ++ s) = true.
Proof.
  induction p as [| a p IH]; simpl.
  - apply prefix_nil.
  - destruct (ascii_dec a a); [exact IH | congruence].
Qed.

Lemma drop_append (p s : string) : drop (String.length p) (p ++ s) = s.
Proof. induction p as [| a p IH]; simpl; auto. Qed.

Lemma prefix_split (p s : string) :
  prefix p s = true -> s = p ++ drop (String.length p) s.
Proof.
  revert s. induction p as [| a p IH]; intros s H; simpl.
  - reflexivity.
  - destruct s as [| b s]; simpl in H; [discriminate |].
    destruct (ascii_dec a b); [subst b | discriminate].
    f_equal. apply IH, H.
Qed.

Lemma String_replace_eq (pat rep s : string) :
  String_replace pat rep s
  = if prefix pat s then rep ++ drop (String.length pat) s
    else match s with
         | EmptyString => s
         | String c s' => String c (String_replace pat rep s')
         end.
Proof. destruct s; reflexivity. Qed.

Lemma String_includes_eq (pat s : string) :
  String_includes pat s
  = if prefix pat s then true
    else match s with
         | EmptyString => false
         | String _ s' => String_includes pat s'
         end.
Proof. destruct s; reflexivity. Qed.

(** A leading pattern is what gets replaced. *)
Lemma String_replace_prefix (pat rep rest : string) :
  String_replace pat rep (pat ++ rest) = rep ++ rest.
Proof.
  rewrite String_replace_eq, prefix_append, drop_append. reflexivity.
Qed.

(** Without an occurrence the string is left as it is. *)
Lemma String_replace_absent (pat rep s : string) :
  String_includes pat s = false -> String_replace pat rep s = s.
Proof.
  induction s as [| c s IH]; intros H;
    rewrite String_includes_eq in H; rewrite String_replace_eq;
    destruct (prefix pat _); try discriminate; [reflexivity |].
  f_equal. apply IH, H.
Qed.

(** With an occurrence, the first one is cut out, wherever it is. *)
Lemma String_replace_first (pat rep s : string) :
  String_includes pat s = true ->
  exists pre post,
    s = pre ++ pat ++ post
    /\ String_replace pat rep s = pre ++ rep ++ post
    /\ (forall a b, pre = a ++ b -> b <> "" -> prefix pat (b ++ pat ++ post) = false).
Proof.
  induction s as [| c s IH]; intros H;
    rewrite String_includes_eq in H; rewrite String_replace_eq;
    destruct (prefix pat _) eqn:Hp; try discriminate.
  - exists "", (drop (String.length pat) ""). simpl. split; [| split].
    + apply prefix_split, Hp.
    + reflexivity.
    + intros [| x a] b Hab Hb; simpl in Hab; congruence.
  - exists "", (drop (String.length pat) (String c s)). split; [| split].
    + apply prefix_split, Hp.
    + reflexivity.
    + intros [| x a] b Hab Hb; simpl in Hab; congruence.
  - destruct (IH H) as (pre & post & Hs & Hr & Hfirst).
    exists (String c pre), post. split; [| split].
    + simpl. f_equal. exact Hs.
    + simpl. f_equal. exact Hr.
    + intros [| x a] b Hab Hb; simpl in Hab.
      * subst b. simpl. rewrite <- Hs. exact Hp.
      * injection Hab as _ Hab. apply (Hfirst a b Hab Hb).
Qed.

Lemma or_strip_bearer (configured authorization : option string) (v : string) :
  resolves_to configured authorization v ->
  or (strip_bearer configured) (strip_bearer authorization)
  = JStr (String_replace "Bearer " "" v).
Proof.
  unfold or. intros [[-> Hv] | [[-> | (w & -> & Hw)] ->]]; simpl.
  - destruct (String.eqb_spec (String_replace "Bearer " "" v) "");
      [contradiction | reflexivity].
  - reflexivity.
  - rewrite Hw. reflexivity.
Qed.

(** C6 (amended).  In both adapters the credential is the resolved
    header value with the first occurrence of ["Bearer "] removed,
    wherever in the value it stands: a value that starts with
    ["Bearer "] loses that prefix and nothing else, a value that does
    not contain ["Bearer "] is used verbatim, and a value that contains
    it further in loses it there. *)
Theorem C6_first_Bearer_removed (v : string) :
  (forall apiKeyHeader req,
     resolves_to (req_header req apiKeyHeader) (req_header req "authorization") v ->
     createMiddleware_apiKey apiKeyHeader req = JStr (String_replace "Bearer " "" v))
  /\ (forall apiKeyHeader request,
        resolves_to (Headers_get (request_headers request) apiKeyHeader)
                    (Headers_get (request_headers request) "authorization") v ->
        withRateLimit_apiKey apiKeyHeader request = JStr (String_replace "Bearer " "" v))
  /\ (forall rest, v = "Bearer " ++ rest -> String_replace "Bearer " "" v = rest)
  /\ (String_includes "Bearer " v = false -> String_replace "Bearer " "" v = v)
  /\ (String_includes "Bearer " v = true ->
      exists pre post,
        v = pre ++ "Bearer " ++ post
        /\ String_replace "Bearer " "" v = pre ++ post
        /\ (forall a b, pre = a ++ b -> b <> "" ->
              prefix "Bearer " (b ++ "Bearer " ++ post) = false)).
Proof.
  split; [| split; [| split; [| split]]].
  - intros apiKeyHeader req H. apply or_strip_bearer, H.
  - intros apiKeyHeader request H. apply or_strip_bearer, H.
  - intros rest ->. apply (String_replace_prefix "Bearer " "" rest).
  - apply String_replace_absent.
  - intros H. destruct (String_replace_first "Bearer " "" v H) as (pre & post & H1 & H2 & H3).
    exists pre, post. auto.
Qed.

Lemma C6_first_Bearer_removed_example :
  let req := {| req_headers := Some [("authorization", "Bearer abc")];
                req_url := Some "/api/users"; req_path := None;
                req_method := Some "GET" |} in
  let request := {| request_headers := [("authorization", "Bearer abc")];
                    request_url := "https://example.com/api/users";
                    request_method := "GET" |} in
  createMiddleware_apiKey "authorization" req = JStr "abc"
  /\ withRateLimit_apiKey "authorization" request = JStr "abc".
Proof.
  pose proof (C6_first_Bearer_removed "Bearer abc") as (Hmw & Hrl & _).
  split.
  - apply (Hmw "authorization"
             {| req_headers := Some [("authorization", "Bearer abc")];
                req_url := Some "/api/users"; req_path := None;
                req_method := Some "GET" |}).
    left. split; [reflexivity | discriminate].
  - apply (Hrl "authorization"
             {| request_headers := [("authorization", "Bearer abc")];
                request_url := "https://example.com/api/users";
                request_method := "GET" |}).
    left. split; [reflexivity | discriminate].
Defined.

(** C6 as stated fails on a value that holds ["Bearer "] further in: it
    does not start with the prefix, and the credential is not the value. *)
Lemma C6_Bearer_inside_value_removed :
  let v := "Token Bearer abc" in
  let req := {| req_headers := Some [("authorization", v)];
                req_url := Some "/api/users"; req_path := None;
                req_method := Some "GET" |} in
  let request := {| request_headers := [("authorization", v)];
                    request_url := "https://example.com/api/users";
                    request_method := "GET" |} in
  prefix "Bearer " v = false
  /\ createMiddleware_apiKey "authorization" req = JStr "Token abc"
  /\ withRateLimit_apiKey "authorization" request = JStr "Token abc"
  /\ "Token abc" <> v.
Proof.
  repeat split; discriminate.
Qed.

(** ** The request gates *)

Lemma get_prop_defined (v : JsValue) (k k' : string) (x : JsValue) :
  get_prop v k = Normal x -> exists y, get_prop v k' = Normal y.
Proof.
  destruct v; simpl; intros H; try discriminate; eexists; reflexivity.
Qed.

Section Gate.

Variable axios : string -> AxiosRequestConfig -> Completion AxiosResponse.
Variable this : Limitly.

(** The validate operation makes exactly one outbound call. *)
Lemma validate_one_call (api_key endpoint method : JsValue) :
  fst (validate axios (client this) api_key endpoint method None)
  = [EvAxios (baseUrl (client this) ++ "/validate")
       (requestConfig (client this)
          (verb "POST" (JObj [("api_key", api_key); ("endpoint", endpoint);
                              ("method", method)]))
          None)].
Proof. apply makeRequest_one_call. Qed.

(** C7.  No credential: both adapters answer 401 with
    [{error: "API Key required"}]; the middleware first calls the
    validation-error hook when there is one; neither the continuation
    nor the handler is invoked, and nothing is sent to the remote API. *)
Theorem C7_missing_credential_401 :
  (forall options req next,
     truthy (createMiddleware_apiKey (mw_header options) req) = false ->
     createMiddleware axios this options req next
     = (((if supplied options mw_onValidationError
          then [EvOnValidationError req (new_Error "API Key required")]
          else [])
         ++ [EvResStatus 401;
             EvResJson (JObj [("error", JStr "API Key required")])])%list,
        Normal tt)
     /\ no_remote_call_nor_delegation
          (fst (createMiddleware axios this options req next)) = true)
  /\ (forall handler options request args,
        truthy (withRateLimit_apiKey (rl_header options) request) = false ->
        withRateLimit axios this handler options request args
        = ([], Normal (Response_json (JObj [("error", JStr "API Key required")]) 401))).
Proof.
  split.
  - intros options req next H.
    assert (E : createMiddleware axios this options req next
                = (((if supplied options mw_onValidationError
                     then [EvOnValidationError req (new_Error "API Key required")]
                     else [])
                    ++ [EvResStatus 401;
                        EvResJson (JObj [("error", JStr "API Key required")])])%list,
                   Normal tt)).
    { unfold createMiddleware. fold (mw_header options). rewrite H. simpl.
      unfold when_provided. destruct (supplied options mw_onValidationError); reflexivity. }
    split; [exact E |]. rewrite E. simpl.
    destruct (supplied options mw_onValidationError); reflexivity.
  - intros handler options request args H.
    unfold withRateLimit, withRateLimit_try. fold (rl_header options).
    rewrite H. reflexivity.
Qed.

(** C8.  Validation answered and [success] is falsy.  The middleware
    calls the rate-limit hook when there is one and answers 429 with
    [{error: "Rate limit exceeded", details}], [details] being the
    outcome's own; the wrapper returns what the override producer
    returns when there is one, and the same 429 response otherwise.
    Neither the continuation nor the handler is invoked. *)
Theorem C8_not_allowed_429 (result success details : JsValue) :
  get_prop result "success" = Normal success ->
  truthy success = false ->
  get_prop result "details" = Normal details ->
  (forall options req next t,
     truthy (createMiddleware_apiKey (mw_header options) req) = true ->
     validate axios (client this) (createMiddleware_apiKey (mw_header options) req)
       (createMiddleware_endpoint req) (of_option JStr (req_method req)) None
     = (t, Normal result) ->
     createMiddleware axios this options req next
     = ((t ++ (if supplied options mw_onRateLimitExceeded
               then [EvOnRateLimitExceeded req] else [])
           ++ [EvResStatus 429; EvResJson (rate_limit_body details)])%list,
        Normal tt)
     /\ ~ In EvNext (fst (createMiddleware axios this options req next)))
  /\ (forall handler options request args pathname t,
        truthy (withRateLimit_apiKey (rl_header options) request) = true ->
        URL_pathname (request_url request) = Normal pathname ->
        validate axios (client this) (withRateLimit_apiKey (rl_header options) request)
          (JStr pathname) (JStr (request_method request)) None
        = (t, Normal result) ->
        withRateLimit axios this handler options request args
        = match and_then options rl_onRateLimitExceeded with
          | Some onRateLimitExceeded =>
              ((t ++ [EvOverride request])%list, Normal (onRateLimitExceeded request))
          | None => (t, Normal (Response_json (rate_limit_body details) 429))
          end
        /\ (forall r a, ~ In (EvHandler r a)
                          (fst (withRateLimit axios this handler options request args)))).
Proof.
  intros Hs Hf Hd. split.
  - intros options req next t Hk Hv.
    assert (Ht : t = fst (validate axios (client this)
                            (createMiddleware_apiKey (mw_header options) req)
                            (createMiddleware_endpoint req)
                            (of_option JStr (req_method req)) None))
      by (rewrite Hv; reflexivity).
    rewrite validate_one_call in Ht.
    assert (E : createMiddleware axios this options req next
                = ((t ++ (if supplied options mw_onRateLimitExceeded
                          then [EvOnRateLimitExceeded req] else [])
                      ++ [EvResStatus 429; EvResJson (rate_limit_body details)])%list,
                   Normal tt)).
    { unfold createMiddleware. fold (mw_header options). rewrite Hk. simpl.
      rewrite Hv. unfold bind at 1, try_catch. unfold lift, bind at 1.
      rewrite Hs, Hf. simpl. unfold when_provided.
      destruct (supplied options mw_onRateLimitExceeded);
        simpl; rewrite Hd; simpl; rewrite ?app_nil_r; reflexivity. }
    split; [exact E |]. rewrite E, Ht. simpl.
    destruct (supplied options mw_onRateLimitExceeded); simpl; intuition discriminate.
  - intros handler options request args pathname t Hk Hp Hv.
    assert (Ht : t = fst (validate axios (client this)
                            (withRateLimit_apiKey (rl_header options) request)
                            (JStr pathname) (JStr (request_method request)) None))
      by (rewrite Hv; reflexivity).
    rewrite validate_one_call in Ht.
    assert (E : withRateLimit axios this handler options request args
                = match and_then options rl_onRateLimitExceeded with
                  | Some onRateLimitExceeded =>
                      ((t ++ [EvOverride request])%list,
                       Normal (onRateLimitExceeded request))
                  | None => (t, Normal (Response_json (rate_limit_body details) 429))
                  end).
    { unfold withRateLimit, withRateLimit_try. fold (rl_header options).
      rewrite Hk, Hp. simpl. rewrite Hv. simpl. rewrite Hs. simpl. rewrite Hf. simpl.
      destruct (and_then options rl_onRateLimitExceeded);
        simpl; rewrite ?Hd; simpl; rewrite ?app_nil_r; reflexivity. }
    split; [exact E |]. intros r a. rewrite E, Ht.
    destruct (and_then options rl_onRateLimitExceeded); simpl; intuition discriminate.
Qed.

(** C9.  In the wrapper, an error of the validation step (the URL does
    not parse, the validate call rejects, or the outcome cannot be
    read) is logged and answered with a returned 500
    [{error: "Validation error"}]; a rejection of the promise the
    handler returned is not caught: the wrapper's own promise rejects
    with the same value, nothing is logged and no 500 is built. *)
Theorem C9_validation_errors_500_handler_rejection_propagates
    (handler : Handler) (options : option RateLimitOptions)
    (request : WebRequest) (args : list JsValue) :
  truthy (withRateLimit_apiKey (rl_header options) request) = true ->
  (forall e,
     URL_pathname (request_url request) = Abrupt e ->
     withRateLimit axios this handler options request args
     = ([console_error e], Normal validation_error_500))
  /\ (forall pathname t e,
        URL_pathname (request_url request) = Normal pathname ->
        validate axios (client this) (withRateLimit_apiKey (rl_header options) request)
          (JStr pathname) (JStr (request_method request)) None
        = (t, Abrupt e) ->
        withRateLimit axios this handler options request args
        = ((t ++ [console_error e])%list, Normal validation_error_500))
  /\ (forall pathname t result e,
        URL_pathname (request_url request) = Normal pathname ->
        validate axios (client this) (withRateLimit_apiKey (rl_header options) request)
          (JStr pathname) (JStr (request_method request)) None
        = (t, Normal result) ->
        get_prop result "success" = Abrupt e ->
        withRateLimit axios this handler options request args
        = ((t ++ [console_error e])%list, Normal validation_error_500))
  /\ (forall pathname t result success e,
        URL_pathname (request_url request) = Normal pathname ->
        validate axios (client this) (withRateLimit_apiKey (rl_header options) request)
          (JStr pathname) (JStr (request_method request)) None
        = (t, Normal result) ->
        get_prop result "success" = Normal success ->
        truthy success = true ->
        handler request args = HandlerReturns (Abrupt e) ->
        withRateLimit axios this handler options request args
        = ((t ++ [EvHandler request args])%list, Abrupt e)).
Proof.
  intros Hk.
  split; [| split; [| split]].
  - intros e Hp. unfold withRateLimit, withRateLimit_try. fold (rl_header options).
    rewrite Hk, Hp. reflexivity.
  - intros pathname t e Hp Hv. unfold withRateLimit, withRateLimit_try.
    fold (rl_header options). rewrite Hk, Hp. simpl. rewrite Hv. simpl.
    rewrite app_nil_r. reflexivity.
  - intros pathname t result e Hp Hv Hs. unfold withRateLimit, withRateLimit_try.
    fold (rl_header options). rewrite Hk, Hp. simpl. rewrite Hv. simpl. rewrite Hs.
    simpl. rewrite !app_nil_r. reflexivity.
  - intros pathname t result success e Hp Hv Hs Ht Hh.
    unfold withRateLimit, withRateLimit_try.
    fold (rl_header options). rewrite Hk, Hp. simpl. rewrite Hv. simpl. rewrite Hs.
    simpl. rewrite Ht. simpl. rewrite Hh. simpl. rewrite ?app_nil_r. reflexivity.
Qed.

(** By contrast, a handler that throws before returning its promise is
    inside the [try]: that error is logged and answered with the 500. *)
Lemma withRateLimit_handler_throw_caught
    (handler : Handler) (options : option RateLimitOptions)
    (request : WebRequest) (args : list JsValue)
    (pathname : string) (t : list Event) (result success : JsValue) (e : Exn) :
  truthy (withRateLimit_apiKey (rl_header options) request) = true ->
  URL_pathname (request_url request) = Normal pathname ->
  validate axios (client this) (withRateLimit_apiKey (rl_header options) request)
    (JStr pathname) (JStr (request_method request)) None
  = (t, Normal result) ->
  get_prop result "success" = Normal success ->
  truthy success = true ->
  handler request args = HandlerThrows e ->
  withRateLimit axios this handler options request args
  = ((t ++ [EvHandler request args; console_error e])%list, Normal validation_error_500).
Proof.
  intros Hk Hp Hv Hs Ht Hh. unfold withRateLimit, withRateLimit_try.
  fold (rl_header options). rewrite Hk, Hp. simpl. rewrite Hv. simpl. rewrite Hs.
  simpl. rewrite Ht. simpl. rewrite Hh. simpl.
  rewrite !app_nil_r, <- app_assoc. reflexivity.
Qed.

(** The path taken from a URL holds no [?]. *)
Lemma take_until_path_end_no_query (s : string) :
  String_includes "?" (take_until is_path_end s) = false.
Proof.
  induction s as [| c s IH]; simpl; [reflexivity |].
  destruct (is_path_end c) eqn:Hc; [reflexivity |].
  rewrite String_includes_eq, prefix_cons.
  destruct (ascii_dec "?" c) as [<- | _]; [discriminate Hc | exact IH].
Qed.

Lemma URL_pathname_no_query (s pathname : string) :
  URL_pathname s = Normal pathname -> String_includes "?" pathname = false.
Proof.
  unfold URL_pathname. destruct s as [| c s]; [discriminate |].
  destruct (is_upper c || is_lower c); [| discriminate].
  destruct (prefix "://" _); [| discriminate].
  intros H. injection H as <-.
  match goal with
  | |- String_includes _ (if ?b then _ else _) = _ => destruct b
  end.
  - reflexivity.
  - apply take_until_path_end_no_query.
Qed.

(** C10 (amended).  The wrapper validates the URL's path, which holds no
    query string; the middleware validates [req.url] as it is, and
    [req.path] when [req.url] is absent or empty; so for a URL with a
    query string the two adapters validate different endpoints. *)
Theorem C10_adapters_validate_different_endpoints :
  (forall handler options request args pathname,
     truthy (withRateLimit_apiKey (rl_header options) request) = true ->
     URL_pathname (request_url request) = Normal pathname ->
     (exists ev rest,
        fst (withRateLimit axios this handler options request args) = ev :: rest
        /\ is_remote_call ev = true
        /\ endpoint_of ev = Normal (JStr pathname))
     /\ String_includes "?" pathname = false)
  /\ (forall options req next,
        truthy (createMiddleware_apiKey (mw_header options) req) = true ->
        (exists ev rest,
           fst (createMiddleware axios this options req next) = ev :: rest
           /\ is_remote_call ev = true
           /\ endpoint_of ev = Normal (createMiddleware_endpoint req))
        /\ (forall u, req_url req = Some u -> u <> "" ->
              createMiddleware_endpoint req = JStr u)
        /\ (req_url req = None \/ req_url req = Some "" ->
              createMiddleware_endpoint req = of_option JStr (req_path req)))
  /\ (exists u pathname,
        String_includes "?" u = true
        /\ URL_pathname u = Normal pathname
        /\ pathname <> u
        /\ forall req, req_url req = Some u ->
             createMiddleware_endpoint req = JStr u
             /\ createMiddleware_endpoint req <> JStr pathname).
Proof.
  split; [| split].
  - intros handler options request args pathname Hk Hp.
    split; [| apply (URL_pathname_no_query _ _ Hp)].
    unfold withRateLimit, withRateLimit_try. fold (rl_header options).
    rewrite Hk, Hp. simpl.
    pose proof (validate_one_call (withRateLimit_apiKey (rl_header options) request)
                  (JStr pathname) (JStr (request_method request))) as Hone.
    destruct (validate axios (client this) _ _ _ None) as [t c]. simpl in Hone. subst t.
    destruct c as [result | e]; simpl.
    + destruct (get_prop result "success") as [success | e]; simpl.
      * destruct (truthy success); simpl.
        -- destruct (handler request args) as [e | p]; simpl;
             do 2 eexists; (split; [reflexivity | split; reflexivity]).
        -- destruct (and_then options rl_onRateLimitExceeded); simpl.
           ++ do 2 eexists; (split; [reflexivity | split; reflexivity]).
           ++ destruct (get_prop result "details"); simpl;
                do 2 eexists; (split; [reflexivity | split; reflexivity]).
      * do 2 eexists; (split; [reflexivity | split; reflexivity]).
    + do 2 eexists; (split; [reflexivity | split; reflexivity]).
  - intros options req next Hk. split; [| split].
    + unfold createMiddleware. fold (mw_header options). rewrite Hk. simpl.
      pose proof (validate_one_call (createMiddleware_apiKey (mw_header options) req)
                    (createMiddleware_endpoint req) (of_option JStr (req_method req)))
        as Hone.
      destruct (validate axios (client this) _ _ _ None) as [t c]. simpl in Hone. subst t.
      unfold when_provided.
      destruct c as [result | e]; simpl.
      * destruct (get_prop result "success") as [success | e]; simpl.
        -- destruct (truthy success); simpl.
           ++ destruct next; simpl;
                do 2 eexists; (split; [reflexivity | split; reflexivity]).
           ++ destruct (supplied options mw_onRateLimitExceeded); simpl;
                destruct (get_prop result "details"); simpl;
                try destruct (supplied options mw_onValidationError); simpl;
                do 2 eexists; (split; [reflexivity | split; reflexivity]).
        -- destruct (supplied options mw_onValidationError); simpl;
             do 2 eexists; (split; [reflexivity | split; reflexivity]).
      * destruct (supplied options mw_onValidationError); simpl;
          do 2 eexists; (split; [reflexivity | split; reflexivity]).
    + intros u Hu Hne. unfold createMiddleware_endpoint, or. rewrite Hu. simpl.
      destruct (String.eqb_spec u ""); [contradiction | reflexivity].
    + intros [Hu | Hu]; unfold createMiddleware_endpoint, or; rewrite Hu; reflexivity.
  - exists "https://example.com/api/users?page=2", "/api/users".
    split; [reflexivity |]. split; [reflexivity |]. split; [discriminate |].
    intros req Hu. unfold createMiddleware_endpoint, or. rewrite Hu. simpl.
    split; [reflexivity | discriminate].
Qed.

End Gate.

(** ** The gate scenarios, run on mocked transports *)

Lemma C7_no_authorization_header :
  createMiddleware (mockResolvedValue allowed) limitly both_hooks
    req_without_credential true
  = ([EvOnValidationError req_without_credential (new_Error "API Key required");
      EvResStatus 401;
      EvResJson (JObj [("error", JStr "API Key required")])],
     Normal tt)
  /\ withRateLimit (mockResolvedValue allowed) limitly failing_handler None
       request_without_credential []
     = ([], Normal (Response_json (JObj [("error", JStr "API Key required")]) 401)).
Proof.
  destruct (C7_missing_credential_401 (mockResolvedValue allowed) limitly) as [Hmw Hrl].
  split.
  - exact (proj1 (Hmw both_hooks req_without_credential true eq_refl)).
  - exact (Hrl failing_handler None request_without_credential [] eq_refl).
Defined.

Lemma C8_denied_with_details :
  snd (createMiddleware (mockResolvedValue denied) limitly both_hooks
         req_with_credential true) = Normal tt
  /\ skipn 1 (fst (createMiddleware (mockResolvedValue denied) limitly both_hooks
                     req_with_credential true))
     = [EvOnRateLimitExceeded req_with_credential;
        EvResStatus 429;
        EvResJson (JObj [("error", JStr "Rate limit exceeded");
                         ("details", usage_details)])]
  /\ snd (withRateLimit (mockResolvedValue denied) limitly failing_handler None
            request_with_credential [])
     = Normal (Response_json (JObj [("error", JStr "Rate limit exceeded");
                                    ("details", usage_details)]) 429).
Proof.
  destruct (C8_not_allowed_429 (mockResolvedValue denied) limitly
              denied (JBool false) usage_details eq_refl eq_refl eq_refl) as [Hmw Hrl].
  destruct (Hmw both_hooks req_with_credential true _ eq_refl eq_refl) as [Emw _].
  destruct (Hrl failing_handler None request_with_credential [] "/api/users" _
              eq_refl eq_refl eq_refl) as [Erl _].
  rewrite Emw, Erl. repeat split.
Defined.

Lemma C9_rejections :
  withRateLimit (mockRejectedValue (networkError "timeout")) limitly failing_handler
    None request_with_credential []
  = ([EvAxios (baseUrl (client limitly) ++ "/validate")
        (requestConfig (client limitly)
           (verb "POST" (JObj [("api_key", JStr "abc");
                               ("endpoint", JStr "/api/users");
                               ("method", JStr "GET")]))
           None);
      console_error
        (ExnLimitly {| message := "Network error: timeout"; statusCode := 0;
                       response := JObj [("originalError", JStr "timeout")] |})],
     Normal validation_error_500)
  /\ snd (withRateLimit (mockResolvedValue allowed) limitly failing_handler None
            request_with_credential [JNum 7])
     = Abrupt (new_Error "boom")
  /\ withRateLimit (mockResolvedValue allowed) limitly failing_handler None
       request_with_relative_url []
     = ([console_error (new_TypeError "Invalid URL")], Normal validation_error_500)
  /\ snd (withRateLimit (mockResolvedValue JNull) limitly failing_handler None
            request_with_credential [])
     = Normal validation_error_500.
Proof.
  split; [| split; [| split]].
  - destruct (C9_validation_errors_500_handler_rejection_propagates
                (mockRejectedValue (networkError "timeout")) limitly failing_handler
                None request_with_credential [] eq_refl) as (_ & Hv & _).
    exact (Hv "/api/users" _ _ eq_refl eq_refl).
  - destruct (C9_validation_errors_500_handler_rejection_propagates
                (mockResolvedValue allowed) limitly failing_handler
                None request_with_credential [JNum 7] eq_refl) as (_ & _ & _ & Hh).
    rewrite (Hh "/api/users" _ allowed (JBool true) (new_Error "boom")
               eq_refl eq_refl eq_refl eq_refl eq_refl).
    reflexivity.
  - destruct (C9_validation_errors_500_handler_rejection_propagates
                (mockResolvedValue allowed) limitly failing_handler
                None request_with_relative_url [] eq_refl) as (Hu & _).
    exact (Hu _ eq_refl).
  - destruct (C9_validation_errors_500_handler_rejection_propagates
                (mockResolvedValue JNull) limitly failing_handler
                None request_with_credential [] eq_refl) as (_ & _ & Hr & _).
    rewrite (Hr "/api/users" _ JNull _ eq_refl eq_refl eq_refl).
    reflexivity.
Defined.

Lemma C10_query_string_example :
  (exists ev rest,
     fst (withRateLimit (mockResolvedValue allowed) limitly failing_handler None
            request_with_credential []) = ev :: rest
     /\ is_remote_call ev = true
     /\ endpoint_of ev = Normal (JStr "/api/users"))
  /\ (exists ev rest,
        fst (createMiddleware (mockResolvedValue allowed) limitly both_hooks
               req_with_credential true) = ev :: rest
        /\ is_remote_call ev = true
        /\ endpoint_of ev = Normal (JStr "/api/users?page=2")).
Proof.
  destruct (C10_adapters_validate_different_endpoints (mockResolvedValue allowed) limitly)
    as (Hrl & Hmw & _).
  split.
  - exact (proj1 (Hrl failing_handler None request_with_credential [] "/api/users"
                    eq_refl eq_refl)).
  - exact (proj1 (Hmw both_hooks req_with_credential true eq_refl)).
Defined.

(** C10 as stated fails on an empty [req.url]: the field is there, and
    the middleware validates [req.path]. *)
Lemma C10_empty_url_falls_back_to_path :
  let req := {| req_headers := Some [("authorization", "Bearer abc")];
                req_url := Some ""; req_path := Some "/api/users";
                req_method := Some "GET" |} in
  req_url req <> None
  /\ createMiddleware_endpoint req = JStr "/api/users"
  /\ createMiddleware_endpoint req <> of_option JStr (req_url req)
  /\ exists url config,
       fst (createMiddleware (mockResolvedValue allowed) limitly None req true)
       = [EvAxios url config; EvNext]
       /\ get_prop (ax_data config) "endpoint" = Normal (JStr "/api/users").
Proof.
  split; [discriminate |]. split; [reflexivity |]. split; [discriminate |].
  do 2 eexists. split; reflexivity.
Qed.

(* ================================================================== *)
(** * Further properties of the executor *)

Section ExecutorMore.

Variable axios : string -> AxiosRequestConfig -> Completion AxiosResponse.
Variable this : HttpClient.

(** X1.  Each verb makes exactly one outbound call, whatever the
    transport answers, to the base URL with the endpoint appended as it
    is; GET and DELETE carry no body, POST and PUT carry the caller's. *)
Theorem X1_verbs_one_call (endpoint : string) (data : JsValue)
    (requestOptions : option RequestOptions) :
  let sent (m : string) (d : JsValue) :=
    [EvAxios (baseUrl this ++ endpoint) (requestConfig this (verb m d) requestOptions)] in
  fst (get axios this endpoint requestOptions) = sent "GET" JUndefined
  /\ fst (post axios this endpoint data requestOptions) = sent "POST" data
  /\ fst (put axios this endpoint data requestOptions) = sent "PUT" data
  /\ fst (delete axios this endpoint requestOptions) = sent "DELETE" JUndefined
  /\ (forall m d, ax_method (requestConfig this (verb m d) requestOptions) = Some m
                  /\ ax_data (requestConfig this (verb m d) requestOptions) = d).
Proof.
  intros sent. unfold get, post, put, delete, sent.
  repeat split; apply makeRequest_one_call.
Qed.


End ExecutorMore.


(** ** The header merge *)

Lemma lookup_str_app (k : string) (l1 l2 : list (string * string)) :
  lookup_str k (l1 ++ l2)
  = match lookup_str k l1 with
    | Some v => Some v
    | None => lookup_str k l2
    end.
Proof.
  induction l1 as [| [k' v'] l1 IH]; simpl; [reflexivity |].
  destruct (k =? k')%string; [reflexivity | exact IH].
Qed.

Lemma lookup_set_key (k k' v : string) (o : list (string * string)) :
  lookup_str k (set_key k' v o)
  = if (k =? k')%string then Some v else lookup_str k o.
Proof.
  induction o as [| [k0 v0] o IH]; simpl.
  - destruct (k =? k')%string; reflexivity.
  - destruct (String.eqb_spec k' k0) as [<- | Hne]; simpl.
    + destruct (k =? k')%string; reflexivity.
    + destruct (String.eqb_spec k k0) as [-> | Hk].
      * destruct (String.eqb_spec k0 k'); [congruence | reflexivity].
      * exact IH.
Qed.

Lemma lookup_spread (k : string) (target : list (string * string))
    (source : option (list (string * string))) :
  lookup_str k (spread target source)
  = match last_written k source with
    | Some v => Some v
    | None => lookup_str k target
    end.
Proof.
  destruct source as [src |]; [| reflexivity]. simpl.
  revert target. induction src as [| [k' v'] src IH]; intros target; simpl.
  - reflexivity.
  - rewrite IH, lookup_str_app, lookup_set_key. simpl.
    destruct (lookup_str k (rev src)); [reflexivity |].
    destruct (k =? k')%string; reflexivity.
Qed.

(** X3.  The header sent under a name is the per-call one when the
    per-call headers hold that name, else the one in [options.headers],
    else the default: [Authorization: Bearer <apiKey>] and
    [Content-Type: application/json].  Names are compared as they are
    written. *)
Theorem X3_header_precedence (this : HttpClient) (options : AxiosRequestConfig)
    (requestOptions : option RequestOptions) (k : string) :
  lookup_str k (outbound_headers this options requestOptions)
  = match last_written k (and_then requestOptions ro_headers) with
    | Some v => Some v
    | None =>
        match last_written k (ax_headers options) with
        | Some v => Some v
        | None =>
            lookup_str k [("Authorization", "Bearer " ++ apiKey this);
                          ("Content-Type", "application/json")]
        end
    end.
Proof.
  unfold outbound_headers, requestConfig. cbn [ax_headers].
  rewrite !lookup_spread. reflexivity.
Qed.







(** ** The accessors and the constructor *)

Lemma substring_0_append (shown hidden : string) :
  substring 0 (String.length shown) (shown ++ hidden) = shown.
Proof.
  induction shown as [| c shown IH]; simpl.
  - destruct hidden; reflexivity.
  - f_equal. exact IH.
Qed.

Lemma substring_0_short (n : nat) (s : string) :
  (String.length s <= n)%nat -> substring 0 n s = s.
Proof.
  revert n. induction s as [| c s IH]; intros n H; simpl in *.
  - destruct n; reflexivity.
  - destruct n as [| n]; [lia |]. f_equal. apply IH. lia.
Qed.

Lemma length_append (a b : string) :
  String.length (a ++ b) = (String.length a + String.length b)%nat.
Proof. induction a as [| c a IH]; simpl; [reflexivity | now rewrite IH]. Qed.

Lemma length_substring_0 (n : nat) (s : string) :
  (String.length (substring 0 n s) <= n)%nat.
Proof.
  revert n. induction s as [| c s IH]; intros [| n]; simpl; try lia.
  specialize (IH n). lia.
Qed.

(** X5.  The masked key shows the first eight characters of the key and
    nothing of what follows them; a key of at most eight characters is
    shown whole; the result is never longer than eleven characters. *)
Theorem X5_getApiKey_mask (this : HttpClient) :
  (forall shown hidden,
     String.length shown = 8%nat -> apiKey this = shown ++ hidden ->
     getApiKey this = shown ++ "...")
  /\ ((String.length (apiKey this) <= 8)%nat -> getApiKey this = apiKey this ++ "...")
  /\ (String.length (getApiKey this) <= 11)%nat.
Proof.
  unfold getApiKey. split; [| split].
  - intros shown hidden Hl ->. rewrite <- Hl, substring_0_append. reflexivity.
  - intros H. rewrite substring_0_short by exact H. reflexivity.
  - rewrite length_append. pose proof (length_substring_0 8 (apiKey this)). simpl. lia.
Qed.

Lemma X5_getApiKey_mask_example :
  getApiKey (client limitly) = "test_api" ++ "..."
  /\ getApiKey {| apiKey := "short"; baseUrl := "https://example.com"; timeout := 1000 |}
     = "short" ++ "...".
Proof.
  split.
  - exact (proj1 (X5_getApiKey_mask (client limitly)) "test_api" "_key" eq_refl eq_refl).
  - apply (proj1 (proj2 (X5_getApiKey_mask
             {| apiKey := "short"; baseUrl := "https://example.com"; timeout := 1000 |}))).
    simpl. lia.
Defined.

(** X6.  A constructed client has a non-empty base URL and a non-zero
    timeout: a configured value is kept when it is non-empty
    (non-zero), and the default replaces a missing, empty or zero one.
    Hence no call of such a client hands the transport a timeout of 0. *)
Theorem X6_constructor_defaults (config : LimitlyConfig) :
  getBaseUrl (new_HttpClient config) <> ""
  /\ timeout (new_HttpClient config) <> 0
  /\ (forall u, cfg_baseUrl config = Some u -> u <> "" ->
        getBaseUrl (new_HttpClient config) = u)
  /\ (forall n, cfg_timeout config = Some n -> n <> 0 ->
        timeout (new_HttpClient config) = n)
  /\ (forall options requestOptions,
        ax_timeout (requestConfig (new_HttpClient config) options requestOptions)
        <> Some 0).
Proof.
  assert (Hu : baseUrl (new_HttpClient config) <> "").
  { simpl. unfold or_str. destruct (cfg_baseUrl config) as [u |]; [| discriminate].
    destruct (String.eqb_spec u ""); [discriminate | assumption]. }
  assert (Ht : timeout (new_HttpClient config) <> 0).
  { simpl. unfold or_num. destruct (cfg_timeout config) as [n |]; [| discriminate].
    destruct (Z.eqb_spec n 0); [discriminate | assumption]. }
  split; [exact Hu |]. split; [exact Ht |]. split; [| split].
  - intros u H Hne. unfold getBaseUrl. simpl. rewrite H. simpl.
    destruct (String.eqb_spec u ""); [contradiction | reflexivity].
  - intros n H Hne. simpl. rewrite H. simpl.
    destruct (Z.eqb_spec n 0); [contradiction | reflexivity].
  - intros options requestOptions. unfold requestConfig. cbn [ax_timeout].
    unfold or_num at 1. destruct (and_then requestOptions ro_timeout) as [n |].
    + destruct (Z.eqb_spec n 0); congruence.
    + congruence.
Qed.

Lemma X6_constructor_defaults_example :
  getBaseUrl (new_HttpClient
    {| cfg_apiKey := "k"; cfg_baseUrl := Some "http://localhost:54321";
       cfg_timeout := Some 10000 |}) = "http://localhost:54321"
  /\ timeout (new_HttpClient
       {| cfg_apiKey := "k"; cfg_baseUrl := Some "http://localhost:54321";
          cfg_timeout := Some 10000 |}) = 10000.
Proof.
  destruct (X6_constructor_defaults
              {| cfg_apiKey := "k"; cfg_baseUrl := Some "http://localhost:54321";
                 cfg_timeout := Some 10000 |}) as (_ & _ & Hu & Ht & _).
  split.
  - apply Hu; [reflexivity | discriminate].
  - apply Ht; [reflexivity | discriminate].
Defined.

(** ** The resource modules *)

(** X7.  [validateWithContext] with a missing (or otherwise falsy)
    context sends exactly what [validate] sends and ends as it does;
    with a context it sends the same three fields followed by
    [context]. *)
Theorem X7_validateWithContext
    (axios : string -> AxiosRequestConfig -> Completion AxiosResponse)
    (client : HttpClient) (api_key endpoint method context : JsValue)
    (options : option RequestOptions) :
  (truthy context = false ->
     validateWithContext axios client api_key endpoint method context options
     = validate axios client api_key endpoint method options)
  /\ (truthy context = true ->
        fst (validateWithContext axios client api_key endpoint method context options)
        = [EvAxios (baseUrl client ++ "/validate")
             (requestConfig client
                (verb "POST"
                   (JObj [("api_key", api_key); ("endpoint", endpoint);
                          ("method", method); ("context", context)]))
                options)]).
Proof.
  unfold validateWithContext, validate, validateRequest, spread_context.
  split; intros ->; [reflexivity |].
  apply makeRequest_one_call.
Qed.

Lemma X7_validateWithContext_example :
  validateWithContext (mockResolvedValue allowed) (client limitly)
    (JStr "user_api_key") (JStr "/api/users") (JStr "GET") JUndefined None
  = validate (mockResolvedValue allowed) (client limitly)
      (JStr "user_api_key") (JStr "/api/users") (JStr "GET") None
  /\ fst (validateWithContext (mockResolvedValue allowed) (client limitly)
            (JStr "user_api_key") (JStr "/api/users") (JStr "GET")
            (JObj [("userId", JNum 123)]) None)
     = [EvAxios (baseUrl (client limitly) ++ "/validate")
          (requestConfig (client limitly)
             (verb "POST"
                (JObj [("api_key", JStr "user_api_key"); ("endpoint", JStr "/api/users");
                       ("method", JStr "GET");
                       ("context", JObj [("userId", JNum 123)])]))
             None)].
Proof.
  split.
  - exact (proj1 (X7_validateWithContext (mockResolvedValue allowed) (client limitly)
                    (JStr "user_api_key") (JStr "/api/users") (JStr "GET")
                    JUndefined None) eq_refl).
  - exact (proj2 (X7_validateWithContext (mockResolvedValue allowed) (client limitly)
                    (JStr "user_api_key") (JStr "/api/users") (JStr "GET")
                    (JObj [("userId", JNum 123)]) None) eq_refl).
Defined.

(** X8.  Key and plan ids go into the path as they are, without
    escaping: an id that ends in a sub-resource name, or that is the
    name of a collection route, issues the very request of that other
    method. *)
Theorem X8_ids_not_escaped
    (axios : string -> AxiosRequestConfig -> Completion AxiosResponse)
    (client : HttpClient) (id : string) (options : option RequestOptions) :
  ApiKeysModule.get axios client (id ++ "/usage") options
  = ApiKeysModule.getUsage axios client id options
  /\ ApiKeysModule.get axios client (id ++ "/requests") options
     = ApiKeysModule.getRequests axios client id options
  /\ ApiKeysModule.get axios client "with-usage" options
     = ApiKeysModule.listWithUsage axios client options
  /\ PlansModule.get axios client (id ++ "/usage") options
     = PlansModule.getUsage axios client id options
  /\ PlansModule.get axios client (id ++ "/users") options
     = PlansModule.getUsers axios client id options
  /\ PlansModule.get axios client (id ++ "/keys") options
     = PlansModule.getKeys axios client id options
  /\ PlansModule.get axios client "with-usage" options
     = PlansModule.listWithUsage axios client options.
Proof.
  repeat split.
Qed.







(* ================================================================== *)
(** * Further properties of the gates *)

Section GateMore.

Variable axios : string -> AxiosRequestConfig -> Completion AxiosResponse.
Variable this : Limitly.

(** The validate operation: one outbound call, then the transport's
    answer as the executor passes it on. *)
Lemma validate_run (api_key endpoint method : JsValue) :
  validate axios (client this) api_key endpoint method None
  = ([validation_call this api_key endpoint method],
     snd (validate axios (client this) api_key endpoint method None)).
Proof.
  pose proof (validate_one_call axios this api_key endpoint method) as H.
  destruct (validate axios (client this) api_key endpoint method None) as [t c].
  simpl in *. subst t. reflexivity.
Qed.

(** The middleware, branch by branch. *)
Lemma createMiddleware_run (options : option MiddlewareOptions)
    (req : NodeRequest) (next : bool) :
  let apiKey := createMiddleware_apiKey (mw_header options) req in
  let endpoint := createMiddleware_endpoint req in
  let method := of_option JStr (req_method req) in
  let call := validation_call this apiKey endpoint method in
  let failed e :=
    ((call :: hook_call (supplied options mw_onValidationError)
                (EvOnValidationError req e)
           ++ answer 500 (JObj [("error", JStr "Validation error")]))%list,
     Normal tt) in
  createMiddleware axios this options req next
  = if truthy apiKey then
      match snd (validate axios (client this) apiKey endpoint method None) with
      | Abrupt e => failed e
      | Normal result =>
          match get_prop result "success" with
          | Abrupt e => failed e
          | Normal success =>
              if truthy success then
                (call :: (if next then [EvNext] else []), Normal tt)
              else
                ((call :: hook_call (supplied options mw_onRateLimitExceeded)
                            (EvOnRateLimitExceeded req)
                       ++ answer 429 (rate_limit_body (field result "details")))%list,
                 Normal tt)
          end
      end
    else
      ((hook_call (supplied options mw_onValidationError)
          (EvOnValidationError req (new_Error "API Key required"))
        ++ answer 401 (JObj [("error", JStr "API Key required")]))%list,
       Normal tt).
Proof.
  intros apiKey endpoint method call failed.
  unfold createMiddleware. fold (mw_header options). fold apiKey endpoint method.
  unfold when_provided, hook_call, failed.
  destruct (truthy apiKey); simpl.
  - rewrite validate_run. fold call. simpl.
    destruct (snd (validate axios (client this) apiKey endpoint method None))
      as [result | e]; simpl.
    + unfold field.
      destruct result; simpl;
        try (destruct (supplied options mw_onValidationError); reflexivity);
        try (destruct (supplied options mw_onRateLimitExceeded); reflexivity).
      match goal with
      | |- context [truthy ?x] => destruct (truthy x)
      end; simpl.
      * destruct next; reflexivity.
      * destruct (supplied options mw_onRateLimitExceeded); reflexivity.
    + destruct (supplied options mw_onValidationError); reflexivity.
  - destruct (supplied options mw_onValidationError); reflexivity.
Qed.

(** The wrapper, branch by branch. *)
Lemma withRateLimit_run (handler : Handler) (options : option RateLimitOptions)
    (request : WebRequest) (args : list JsValue) :
  let apiKey := withRateLimit_apiKey (rl_header options) request in
  let method := JStr (request_method request) in
  let failed (before : list Event) e :=
    ((before ++ [console_error e])%list, Normal validation_error_500) in
  withRateLimit axios this handler options request args
  = if truthy apiKey then
      match URL_pathname (request_url request) with
      | Abrupt e => failed [] e
      | Normal pathname =>
          let call := validation_call this apiKey (JStr pathname) method in
          match snd (validate axios (client this) apiKey (JStr pathname) method None) with
          | Abrupt e => failed [call] e
          | Normal result =>
              match get_prop result "success" with
              | Abrupt e => failed [call] e
              | Normal success =>
                  if truthy success then
                    match handler request args with
                    | HandlerThrows e => failed [call; EvHandler request args] e
                    | HandlerReturns promise => ([call; EvHandler request args], promise)
                    end
                  else
                    match and_then options rl_onRateLimitExceeded with
                    | Some onRateLimitExceeded =>
                        ([call; EvOverride request], Normal (onRateLimitExceeded request))
                    | None =>
                        ([call],
                         Normal (Response_json
                                   (rate_limit_body (field result "details")) 429))
                    end
              end
          end
      end
    else ([], Normal (Response_json (JObj [("error", JStr "API Key required")]) 401)).
Proof.
  intros apiKey method failed.
  unfold withRateLimit, withRateLimit_try. fold (rl_header options). fold apiKey method.
  unfold failed.
  destruct (truthy apiKey); simpl; [| reflexivity].
  destruct (URL_pathname (request_url request)) as [pathname | e]; simpl; [| reflexivity].
  rewrite validate_run. simpl.
  destruct (snd (validate axios (client this) apiKey (JStr pathname) method None))
    as [result | e]; simpl; [| reflexivity].
  unfold field.
  destruct result; simpl; try reflexivity;
    try (destruct (and_then options rl_onRateLimitExceeded); reflexivity).
  match goal with
  | |- context [truthy ?x] => destruct (truthy x)
  end; simpl.
  - destruct (handler request args) as [e | [r | e]]; reflexivity.
  - destruct (and_then options rl_onRateLimitExceeded); reflexivity.
Qed.

End GateMore.

Section GateProperties.

Variable axios : string -> AxiosRequestConfig -> Completion AxiosResponse.
Variable this : Limitly.

Ltac middleware_cases options next :=
  rewrite createMiddleware_run; cbv zeta;
  repeat match goal with
         | |- context [if truthy ?x then _ else _] => destruct (truthy x) eqn:?
         | |- context [match snd ?v with _ => _ end] => destruct (snd v) eqn:?
         | |- context [match get_prop ?r ?k with _ => _ end] =>
             destruct (get_prop r k) eqn:?
         end;
  unfold hook_call, answer;
  try destruct (supplied options mw_onValidationError);
  try destruct (supplied options mw_onRateLimitExceeded);
  try destruct next.

(** X10.  The middleware fails closed.  When the validate call is
    rejected by the transport, whatever the failure, or its outcome
    cannot be read, the validation-error hook (when there is one) gets
    the error, the answer is 500 [{error: "Validation error"}], the
    continuation is not invoked and nothing is thrown. *)
Theorem X10_middleware_fails_closed (options : option MiddlewareOptions)
    (req : NodeRequest) (next : bool) :
  let apiKey := createMiddleware_apiKey (mw_header options) req in
  let endpoint := createMiddleware_endpoint req in
  let method := of_option JStr (req_method req) in
  let failed e :=
    ((validation_call this apiKey endpoint method
        :: hook_call (supplied options mw_onValidationError) (EvOnValidationError req e)
        ++ answer 500 (JObj [("error", JStr "Validation error")]))%list,
     Normal tt) in
  truthy apiKey = true ->
  (forall error,
     axios (baseUrl (client this) ++ "/validate")
       (requestConfig (client this)
          (verb "POST" (JObj [("api_key", apiKey); ("endpoint", endpoint);
                              ("method", method)]))
          None)
     = Abrupt error ->
     exists e, snd (normalize error) = Abrupt e
               /\ createMiddleware axios this options req next = failed e)
  /\ (forall result e,
        snd (validate axios (client this) apiKey endpoint method None) = Normal result ->
        get_prop result "success" = Abrupt e ->
        createMiddleware axios this options req next = failed e).
Proof.
  intros apiKey endpoint method failed Hk. split.
  - intros error H. destruct (normalize_throws error) as [e He].
    exists e. split; [exact He |].
    rewrite createMiddleware_run. cbv zeta. fold apiKey endpoint method. rewrite Hk.
    unfold validate, validateRequest, post.
    rewrite (makeRequest_rejected _ _ _ _ _ error H). simpl. rewrite He. reflexivity.
  - intros result e Hv Hs.
    rewrite createMiddleware_run. cbv zeta. fold apiKey endpoint method.
    rewrite Hk, Hv, Hs. reflexivity.
Qed.


(** X12.  The middleware calls the remote API exactly when a credential
    resolved, and then once. *)
Theorem X12_middleware_remote_calls (options : option MiddlewareOptions)
    (req : NodeRequest) (next : bool) :
  remote_calls (fst (createMiddleware axios this options req next))
  = if truthy (createMiddleware_apiKey (mw_header options) req) then 1%nat else 0%nat.
Proof.
  middleware_cases options next; reflexivity.
Qed.


Ltac wrapper_cases handler options request args :=
  rewrite withRateLimit_run; cbv zeta;
  repeat match goal with
         | |- context [if truthy ?x then _ else _] => destruct (truthy x) eqn:?
         | |- context [match URL_pathname ?u with _ => _ end] =>
             destruct (URL_pathname u) eqn:?
         | |- context [match snd ?v with _ => _ end] => destruct (snd v) eqn:?
         | |- context [match get_prop ?r ?k with _ => _ end] =>
             destruct (get_prop r k) eqn:?
         | |- context [match handler request args with _ => _ end] =>
             destruct (handler request args) as [? | [? | ?]] eqn:?
         | |- context [match and_then options rl_onRateLimitExceeded with _ => _ end] =>
             destruct (and_then options rl_onRateLimitExceeded) eqn:?
         end.

(** X14.  Allowed: the wrapper calls the handler once, with the request
    it received and the extra arguments unchanged, and resolves with
    the handler's response as it is; it builds no response of its own
    and logs nothing. *)
Theorem X14_wrapper_delegates (handler : Handler) (options : option RateLimitOptions)
    (request : WebRequest) (args : list JsValue)
    (pathname : string) (result success : JsValue) (r : Response) :
  let apiKey := withRateLimit_apiKey (rl_header options) request in
  let method := JStr (request_method request) in
  truthy apiKey = true ->
  URL_pathname (request_url request) = Normal pathname ->
  snd (validate axios (client this) apiKey (JStr pathname) method None) = Normal result ->
  get_prop result "success" = Normal success ->
  truthy success = true ->
  handler request args = HandlerReturns (Normal r) ->
  withRateLimit axios this handler options request args
  = ([validation_call this apiKey (JStr pathname) method; EvHandler request args],
     Normal r).
Proof.
  intros apiKey method Hk Hp Hv Hs Ht Hh.
  rewrite withRateLimit_run. cbv zeta. fold apiKey method.
  rewrite Hk, Hp, Hv, Hs, Ht, Hh. reflexivity.
Qed.

(** X15.  The wrapper's promise rejects only with a rejection of the
    promise the handler returned: the handler was then called, after one
    validate call, and nothing was logged. *)
Theorem X15_wrapper_rejects_only_for_handler (handler : Handler)
    (options : option RateLimitOptions) (request : WebRequest) (args : list JsValue)
    (e : Exn) :
  snd (withRateLimit axios this handler options request args) = Abrupt e ->
  handler request args = HandlerReturns (Abrupt e)
  /\ exists call,
       is_remote_call call = true
       /\ fst (withRateLimit axios this handler options request args)
          = [call; EvHandler request args].
Proof.
  wrapper_cases handler options request args; simpl; intros H;
    try discriminate H.
  injection H as ->. split; [reflexivity |].
  eexists. split; [| reflexivity]. reflexivity.
Qed.


(** X17.  The validate call of either gate is a POST to
    [<baseUrl>/validate] whose body holds the caller's credential, the
    endpoint and the method, in that order, and which carries the
    client's own key in [Authorization], the default [Content-Type] and
    the client's timeout: the gates pass no per-call options. *)
Theorem X17_gate_validation_call :
  (forall options req next,
     truthy (createMiddleware_apiKey (mw_header options) req) = true ->
     exists rest,
       fst (createMiddleware axios this options req next)
       = EvAxios (baseUrl (client this) ++ "/validate")
           (validation_config this (createMiddleware_apiKey (mw_header options) req)
              (createMiddleware_endpoint req) (of_option JStr (req_method req)))
         :: rest)
  /\ (forall handler options request args pathname,
        truthy (withRateLimit_apiKey (rl_header options) request) = true ->
        URL_pathname (request_url request) = Normal pathname ->
        exists rest,
          fst (withRateLimit axios this handler options request args)
          = EvAxios (baseUrl (client this) ++ "/validate")
              (validation_config this (withRateLimit_apiKey (rl_header options) request)
                 (JStr pathname) (JStr (request_method request)))
            :: rest).
Proof.
  split.
  - intros options req next Hk. middleware_cases options next;
      try discriminate Hk; eexists; reflexivity.
  - intros handler options request args pathname Hk Hp.
    rewrite withRateLimit_run. cbv zeta. rewrite Hk, Hp.
    repeat match goal with
           | |- context [if truthy ?x then _ else _] => destruct (truthy x)
           | |- context [match snd ?v with _ => _ end] => destruct (snd v)
           | |- context [match get_prop ?r ?k with _ => _ end] => destruct (get_prop r k)
           | |- context [match handler request args with _ => _ end] =>
               destruct (handler request args) as [? | [? | ?]]
           | |- context [match and_then options rl_onRateLimitExceeded with _ => _ end] =>
               destruct (and_then options rl_onRateLimitExceeded)
           end; eexists; reflexivity.
Qed.

End GateProperties.

Lemma X10_middleware_fails_closed_example :
  createMiddleware (mockRejectedValue (networkError "timeout")) limitly both_hooks
    req_with_credential true
  = ([validation_call limitly (JStr "abc") (JStr "/api/users?page=2") (JStr "GET");
      EvOnValidationError req_with_credential
        (ExnLimitly {| message := "Network error: timeout"; statusCode := 0;
                       response := JObj [("originalError", JStr "timeout")] |});
      EvResStatus 500;
      EvResJson (JObj [("error", JStr "Validation error")])],
     Normal tt)
  /\ snd (createMiddleware (mockResolvedValue JNull) limitly None
            req_with_credential true) = Normal tt.
Proof.
  split.
  - destruct (proj1 (X10_middleware_fails_closed
                       (mockRejectedValue (networkError "timeout")) limitly both_hooks
                       req_with_credential true eq_refl)
                _ eq_refl) as (e & He & Hrun).
    rewrite Hrun. injection He as <-. reflexivity.
  - rewrite (proj2 (X10_middleware_fails_closed
                      (mockResolvedValue JNull) limitly None
                      req_with_credential true eq_refl)
               JNull _ eq_refl eq_refl).
    reflexivity.
Defined.


Lemma X14_wrapper_delegates_example :
  withRateLimit (mockResolvedValue allowed) limitly ok_handler None
    request_with_credential [JNum 7]
  = ([validation_call limitly (JStr "abc") (JStr "/api/users") (JStr "GET");
      EvHandler request_with_credential [JNum 7]],
     Normal ok_response).
Proof.
  exact (X14_wrapper_delegates (mockResolvedValue allowed) limitly ok_handler None
           request_with_credential [JNum 7] "/api/users" allowed (JBool true)
           ok_response eq_refl eq_refl eq_refl eq_refl eq_refl eq_refl).
Defined.

Lemma X15_wrapper_rejects_only_for_handler_example :
  failing_handler request_with_credential [] = HandlerReturns (Abrupt (new_Error "boom"))
  /\ exists call,
       is_remote_call call = true
       /\ fst (withRateLimit (mockResolvedValue allowed) limitly failing_handler None
                 request_with_credential [])
          = [call; EvHandler request_with_credential []].
Proof.
  exact (X15_wrapper_rejects_only_for_handler (mockResolvedValue allowed) limitly
           failing_handler None request_with_credential [] (new_Error "boom") eq_refl).
Defined.


Lemma X17_gate_validation_call_example :
  (exists rest,
     fst (createMiddleware (mockResolvedValue allowed) limitly both_hooks
            req_with_credential true)
     = EvAxios (baseUrl (client limitly) ++ "/validate")
         (validation_config limitly (JStr "abc") (JStr "/api/users?page=2") (JStr "GET"))
       :: rest)
  /\ (exists rest,
        fst (withRateLimit (mockResolvedValue allowed) limitly ok_handler None
               request_with_credential [])
        = EvAxios (baseUrl (client limitly) ++ "/validate")
            (validation_config limitly (JStr "abc") (JStr "/api/users") (JStr "GET"))
          :: rest).
Proof.
  destruct (X17_gate_validation_call (mockResolvedValue allowed) limitly) as [Hmw Hrl].
  split.
  - exact (Hmw both_hooks req_with_credential true eq_refl).
  - exact (Hrl ok_handler None request_with_credential [] "/api/users" eq_refl eq_refl).
Defined.
